(** * JBD battery-management driver over BLE: a shallow embedding of
      [battery_switch.py] and the properties of its protocol core.

    Bytes are integers in [0, 255] carried as [Z]; a Python [bytes] or
    [bytearray] is a [list Z].  Python exceptions are values of [exception]
    and fallible code returns a [result].  The connection object [JbdBt]
    is a record threaded through a small state-and-error monad. *)

From Stdlib Require Import ZArith List Lia QArith Qcanon.
From stdpp Require Import base option list gmap strings.
Import ListNotations.

Local Open Scope Z_scope.

(** ** Python primitives used by the driver *)

Inductive exception : Type :=
  | IndexError
  | ValueError
  | OverflowError
  | AssertionError
  | TimeoutError.

Inductive result (A : Type) : Type :=
  | Ok (a : A)
  | Raise (e : exception).
Arguments Ok {A} a.
Arguments Raise {A} e.

Definition rbind {A B} (r : result A) (k : A -> result B) : result B :=
  match r with
  | Ok a => k a
  | Raise e => Raise e
  end.

Declare Scope result_scope.
Delimit Scope result_scope with result.
Notation "x <~ r ; k" := (rbind r (fun x => k))
  (at level 100, r at next level, right associativity) : result_scope.

(** A value that fits in one byte: [range(256)]. *)
Definition is_byte (b : Z) : bool := (0 <=? b) && (b <? 256).

(** [bytes(iterable_of_ints)]: [ValueError] unless every element is in
    [range(256)]. *)
Definition bytes (l : list Z) : result (list Z) :=
  if forallb is_byte l then Ok l else Raise ValueError.

(** [n.to_bytes(2, byteorder='big')]: [OverflowError] for a negative [n]
    and for an [n] too big for two bytes. *)
Definition to_bytes2 (n : Z) : result (list Z) :=
  if (0 <=? n) && (n <? 65536) then Ok [n / 256; n mod 256]
  else Raise OverflowError.

(** The unsigned big-endian value of a byte string. *)
Definition be_value (l : list Z) : Z :=
  fold_left (fun acc b => acc * 256 + b) l 0.

(** [int.from_bytes(l, byteorder='big', signed=...)]; the empty byte string
    decodes to 0 either way. *)
Definition from_bytes (l : list Z) (signed : bool) : Z :=
  let u := be_value l in
  let bits := 8 * Z.of_nat (length l) in
  if signed && negb (bits =? 0) && (2 ^ (bits - 1) <=? u) then u - 2 ^ bits
  else u.

(** [buf[a:b]] for non-negative bounds: clipped to the sequence, never
    an error. *)
Definition slice {A} (l : list A) (a b : nat) : list A :=
  take (b - a)%nat (drop a l).

(** [buf[i]] for a non-negative index: [IndexError] out of range. *)
Definition index (l : list Z) (i : nat) : result Z :=
  match l !! i with
  | Some b => Ok b
  | None => Raise IndexError
  end.

(** [buf.endswith(suffix)] for a one-byte suffix. *)
Definition endswith (l : list Z) (b : Z) : bool :=
  match last l with
  | Some x => x =? b
  | None => false
  end.

(** ** Command encoder and checksum *)

(** [_jbd_command], the read request of the module. *)
Definition _jbd_command (command : Z) : result (list Z) :=
  bytes [0xDD; 0xA5; command; 0x00; 0xFF; 0xFF - (command - 1); 0x77].

(** [jbd_checksum], local to [set_switch]: the loop runs over
    [data + bytes([len(data), cmd])]. *)
Definition jbd_checksum (cmd : Z) (data : list Z) : result (list Z) :=
  (tail <~ bytes [Z.of_nat (length data); cmd];
   let crc := fold_left (fun crc i => crc - i) (data ++ tail) 0x10000 in
   to_bytes2 crc)%result.

(** [jbd_message], local to [set_switch]. *)
Definition jbd_message (status_bit cmd : Z) (data : list Z) : result (list Z) :=
  (hd <~ bytes [0xDD; status_bit; cmd; Z.of_nat (length data)];
   crc <~ jbd_checksum cmd data;
   tl <~ bytes [0x77];
   Ok (hd ++ data ++ crc ++ tl))%result.

(** The sum of a byte string, as the checksum of the protocol counts it. *)
Definition byte_sum (data : list Z) : Z := fold_right Z.add 0 data.

(** The two-byte big-endian encoding of a value below [0x10000]. *)
Definition be16 (v : Z) : list Z := [v / 256; v mod 256].

(** ** The connection object and its environment *)

(** Modelled from the spec: the record [BmsSample] of module [bms], which
    is imported by the driver and not part of the sources.  It keeps the
    fields the driver passes to its constructor (data model of the spec:
    voltage, current, charge, capacity, state of charge, cycle count,
    temperatures, switches).  Python's true division [n / d] of two integers
    is the double nearest to the quotient; the model keeps the exact
    quotient as a canonical rational. *)
Record BmsSample : Type := mkBmsSample {
  voltage : Qc;
  current : Qc;
  charge : Qc;
  capacity : Qc;
  soc : Z;
  num_cycles : Z;
  temperatures : list Qc;
  switches : gmap string bool
}.

(** [n / d] on integers, [d] a positive literal. *)
Definition truediv (n d : Z) : Qc := Q2Qc (Qmake n 1 / Qmake d 1).

(** Modelled from the spec: the waiter of a pending request (the class
    behind [_fetch_futures] lives in module [bt], which is not part of the
    sources).  A waiter is pending until a complete frame for its command
    resolves it with the frame's bytes. *)
Inductive future : Type :=
  | Pending
  | Done (buf : list Z).

(** The state of a [JbdBt] instance: the three attributes set by [__init__],
    the waiter table inherited from [BtBms], and the log of the byte strings
    written to the command characteristic [UUID_TX] (oldest first), which
    stands for the transport. *)
Record JbdBt : Type := mkJbdBt {
  _buffer : list Z;
  _switches : option (gmap string bool);
  _last_response : option (list Z);
  _fetch_futures : gmap Z future;
  tx_log : list (list Z)
}.

Definition set_buffer (self : JbdBt) (b : list Z) : JbdBt :=
  mkJbdBt b (_switches self) (_last_response self) (_fetch_futures self) (tx_log self).
Definition set_switches (self : JbdBt) (s : option (gmap string bool)) : JbdBt :=
  mkJbdBt (_buffer self) s (_last_response self) (_fetch_futures self) (tx_log self).
Definition set_last_response (self : JbdBt) (r : option (list Z)) : JbdBt :=
  mkJbdBt (_buffer self) (_switches self) r (_fetch_futures self) (tx_log self).
Definition set_fetch_futures (self : JbdBt) (p : gmap Z future) : JbdBt :=
  mkJbdBt (_buffer self) (_switches self) (_last_response self) p (tx_log self).

(** [self.client.write_gatt_char(self.UUID_TX, data=data)]. *)
Definition write_gatt_char (self : JbdBt) (data : list Z) : JbdBt :=
  mkJbdBt (_buffer self) (_switches self) (_last_response self)
          (_fetch_futures self) (tx_log self ++ [data]).

(** The state [__init__] leaves. *)
Definition init : JbdBt := mkJbdBt [] None None ∅ [].

Definition TIMEOUT : nat := 16.

(** What the environment does while a request is suspended: a notification
    delivers a chunk of bytes, or one unit of time passes. *)
Inductive event : Type :=
  | Notify (data : list Z)
  | Tick.

(** What one call of the notification handler did. *)
Inductive handled : Type :=
  | NoFrame
  | Frame (command : Z) (buf : list Z)
  | Failed (e : exception).

(** Modelled from the spec: [_fetch_futures.set_result(command, buf)] of
    module [bt] resolves the pending waiter registered for [command], if
    there is one, with the frame's full byte content; a frame for a command
    nobody waits for is dropped. *)
Definition set_result (pool : gmap Z future) (command : Z) (buf : list Z)
  : gmap Z future :=
  match pool !! command with
  | Some Pending => <[command := Done buf]> pool
  | _ => pool
  end.

(** [_notification_handler]: the chunk is appended first; the exception of
    [self._buffer[1]] leaves the buffer as appended. *)
Definition _notification_handler (self : JbdBt) (data : list Z)
  : JbdBt * handled :=
  let self := set_buffer self (_buffer self ++ data) in
  if endswith (_buffer self) 0x77 then
    match index (_buffer self) 1 with
    | Raise e => (self, Failed e)
    | Ok command =>
        let buf := _buffer self in
        let self := set_buffer self [] in
        let self := set_last_response self (Some buf) in
        (set_fetch_futures self (set_result (_fetch_futures self) command buf),
         Frame command buf)
    end
  else (self, NoFrame).

(** Feeding a sequence of chunks to the handler, in order; the outcomes of
    the calls that completed a frame or failed are collected. *)
Fixpoint feed (self : JbdBt) (chunks : list (list Z)) : JbdBt * list handled :=
  match chunks with
  | [] => (self, [])
  | data :: chunks =>
      let '(self, h) := _notification_handler self data in
      let '(self, hs) := feed self chunks in
      (self, match h with NoFrame => hs | _ => h :: hs end)
  end.

(** ** Requests *)

(** A request returns, raises, or is still suspended when the recorded
    environment ends. *)
Inductive outcome (A : Type) : Type :=
  | Return (a : A)
  | Throw (e : exception)
  | Blocked.
Arguments Return {A} a.
Arguments Throw {A} e.
Arguments Blocked {A}.

(** Code running on a request path: it reads and updates the instance and
    consumes the events that happen while it is suspended. *)
Definition M (A : Type) : Type :=
  JbdBt -> list event -> outcome A * JbdBt * list event.

Definition ret {A} (a : A) : M A := fun self env => (Return a, self, env).

Definition bind {A B} (m : M A) (k : A -> M B) : M B :=
  fun self env =>
    match m self env with
    | (Return a, self, env) => k a self env
    | (Throw e, self, env) => (Throw e, self, env)
    | (Blocked, self, env) => (Blocked, self, env)
    end.

Definition lift {A} (r : result A) : M A :=
  fun self env =>
    match r with
    | Ok a => (Return a, self, env)
    | Raise e => (Throw e, self, env)
    end.

Definition get : M JbdBt := fun self env => (Return self, self, env).
Definition modify (f : JbdBt -> JbdBt) : M unit :=
  fun self env => (Return tt, f self, env).

Declare Scope request_scope.
Delimit Scope request_scope with request.
Notation "x <- m ;; k" := (bind m (fun x => k))
  (at level 100, m at next level, right associativity) : request_scope.
Notation "m ;; k" := (bind m (fun _ => k))
  (at level 100, right associativity) : request_scope.

(** Modelled from the spec: [_fetch_futures.acquire(cmd)] of module [bt]
    registers the single waiter of a command; a second waiter for a command
    whose slot is taken fails fast. *)
Definition acquire (cmd : Z) : M unit :=
  fun self env =>
    match _fetch_futures self !! cmd with
    | Some _ => (Throw AssertionError, self, env)
    | None =>
        (Return tt, set_fetch_futures self (<[cmd := Pending]> (_fetch_futures self)), env)
    end.

(** Modelled from the spec: leaving the [with] block of [acquire] destroys
    the waiter. *)
Definition release (cmd : Z) (self : JbdBt) : JbdBt :=
  set_fetch_futures self (delete cmd (_fetch_futures self)).

(** Modelled from the spec: [_fetch_futures.wait_for(cmd, timeout)] of
    module [bt] suspends until the waiter of [cmd] is resolved, and returns
    the frame, or until [timeout] units of time have passed, and fails with
    [TimeoutError], removing the waiter.  Notifications that arrive meanwhile
    run the notification handler. *)
Fixpoint wait_for (cmd : Z) (timeout : nat) (self : JbdBt) (env : list event)
  : outcome (list Z) * JbdBt * list event :=
  match _fetch_futures self !! cmd with
  | Some (Done buf) => (Return buf, self, env)
  | _ =>
      match env with
      | [] => (Blocked, self, [])
      | Notify data :: env =>
          wait_for cmd timeout (fst (_notification_handler self data)) env
      | Tick :: env =>
          match timeout with
          | S (S n) => wait_for cmd (S n) self env
          | _ => (Throw TimeoutError, release cmd self, env)
          end
      end
  end.

(** [_q]: the waiter is released when the [with] block is left, by a result
    or by an exception. *)
Definition _q (cmd : Z) : M (list Z) :=
  fun self env =>
    match acquire cmd self env with
    | (Return _, self, env) =>
        match _jbd_command cmd with
        | Raise e => (Throw e, release cmd self, env)
        | Ok frame =>
            match wait_for cmd TIMEOUT (write_gatt_char self frame) env with
            | (Blocked, self, env) => (Blocked, self, env)
            | (r, self, env) => (r, release cmd self, env)
            end
        end
    | (Throw e, self, env) => (Throw e, self, env)
    | (Blocked, self, env) => (Blocked, self, env)
    end.

(** ** Decoders *)

(** The body of [fetch] between the request and the cache update: [frame]
    is what [_q] returned.  The slices never fail; [buf[19]] does on a short
    payload. *)
Definition fetch_decode (frame : list Z) : result BmsSample :=
  let buf := drop 4 frame in
  let num_temp := from_bytes (slice buf 22 23) false in
  let mos_byte := from_bytes (slice buf 20 21) false in
  (soc_byte <~ index buf 19;
   Ok {| voltage := truediv (from_bytes (slice buf 0 2) false) 100;
         current := truediv (- from_bytes (slice buf 2 4) true) 100;
         charge := truediv (from_bytes (slice buf 4 6) false) 100;
         capacity := truediv (from_bytes (slice buf 6 8) false) 100;
         soc := soc_byte;
         num_cycles := from_bytes (slice buf 8 10) false;
         temperatures :=
           map (fun i => truediv
                  (from_bytes (slice buf (23 + i * 2) (i * 2 + 25)) false - 2731) 10)
               (seq 0 (Z.to_nat num_temp));
         switches :=
           <["discharge" := (mos_byte =? 2) || (mos_byte =? 3)]>
             (<["charge" := (mos_byte =? 1) || (mos_byte =? 3)]> ∅) |})%result.

(** [fetch]. *)
Definition fetch : M BmsSample :=
  (buf <- _q 0x03 ;;
   sample <- lift (fetch_decode buf) ;;
   modify (fun self => set_switches self (Some (switches sample))) ;;
   ret sample)%request.

(** The body of [fetch_voltages] after the request.  [int(buf[3] / 2)]
    truncates the quotient. *)
Definition voltages_decode (buf : list Z) : result (list Z) :=
  (len <~ index buf 3;
   let num_cell := Z.to_nat (Z.quot len 2) in
   Ok (map (fun i => from_bytes (slice buf (4 + i * 2) (i * 2 + 6)) false)
           (seq 0 num_cell)))%result.

(** [fetch_voltages]. *)
Definition fetch_voltages : M (list Z) :=
  (buf <- _q 0x04 ;;
   lift (voltages_decode buf))%request.

(** ** Switch controller *)

(** [sum(d.values())] on a dictionary of booleans. *)
Definition sum_values (d : gmap string bool) : Z :=
  map_fold (fun _ v acc => Z.b2z v + acc) 0 d.

(** The control byte [tc] of [set_switch], from the cached switches and the
    requested change. *)
Definition switch_tc (cached : gmap string bool) (switch : string) (state : bool) : Z :=
  let new_switches := <[switch := state]> cached in
  let switches_sum := sum_values new_switches in
  if switches_sum =? 2 then 0x00
  else if switches_sum =? 0 then 0x03
  else if (String.eqb switch "charge" && negb state)
          || (String.eqb switch "discharge" && state) then 0x01
  else 0x02.

(** [not self._switches]: [None] and the empty dictionary are falsy. *)
Definition switches_unset (self : JbdBt) : bool :=
  match _switches self with
  | None => true
  | Some d => bool_decide (d = ∅)
  end.

(** [set_switch]. *)
Definition set_switch (switch : string) (state : bool) : M unit :=
  (lift (if String.eqb switch "charge" || String.eqb switch "discharge"
         then Ok tt else Raise AssertionError) ;;
   self <- get ;;
   (if switches_unset self then (fetch ;; ret tt) else ret tt) ;;
   self <- get ;;
   let tc := switch_tc (default ∅ (_switches self)) switch state in
   inner <- lift (bytes [0x00; tc]) ;;
   data <- lift (jbd_message 0x5A 0xE1 inner) ;;
   modify (fun self => write_gatt_char self data))%request.

(** ** The table of the switch controller, as the specification gives it *)

Definition control_table (charge_on discharge_on : bool) : Z :=
  match charge_on, discharge_on with
  | true, true => 0x00
  | false, false => 0x03
  | false, true => 0x01
  | true, false => 0x02
  end.

(** The dictionary [{charge, discharge}] that a telemetry fetch caches. *)
Definition switch_state (charge_on discharge_on : bool) : gmap string bool :=
  <["discharge" := discharge_on]> (<["charge" := charge_on]> ∅).

(** ** Vocabulary of the specification *)

(** A well-formed frame starts with [0xDD] and its last byte is the
    terminator [0x77]. *)
Definition well_formed (frame : list Z) : bool :=
  match frame with
  | b :: _ => (b =? 0xDD) && endswith frame 0x77
  | [] => false
  end.

Definition nonempty (chunk : list Z) : bool :=
  match chunk with
  | [] => false
  | _ => true
  end.

(** No chunk before the last one ends with the terminator byte. *)
Definition quiet_split (chunks : list (list Z)) : bool :=
  forallb (fun c => negb (endswith c 0x77)) (removelast chunks).

(** The chunks notified by a stretch of events, and the time it takes. *)
Fixpoint notifications (env : list event) : list (list Z) :=
  match env with
  | [] => []
  | Notify data :: env => data :: notifications env
  | Tick :: env => notifications env
  end.

Fixpoint ticks (env : list event) : nat :=
  match env with
  | [] => 0%nat
  | Notify _ :: env => ticks env
  | Tick :: env => S (ticks env)
  end.

(** None of the handler's outcomes is a complete frame echoing [cmd]. *)
Definition unanswered (cmd : Z) (hs : list handled) : bool :=
  forallb (fun h => match h with Frame c _ => negb (c =? cmd) | _ => true end) hs.

(** The checksum of the specification:
    [(0x10000 - (command + length(data) + sum(data))) mod 0x10000],
    big-endian. *)
Definition spec_checksum (command : Z) (data : list Z) : list Z :=
  be16 ((0x10000 - (command + Z.of_nat (length data) + byte_sum data)) mod 0x10000).

(** Fields of a payload by offset, as the specification reads them. *)
Definition byte_at (payload : list Z) (o : nat) : Z := nth o payload 0.

Definition unsigned_be16 (payload : list Z) (o : nat) : Z :=
  256 * byte_at payload o + byte_at payload (S o).

Definition signed_be16 (payload : list Z) (o : nat) : Z :=
  let u := unsigned_be16 payload o in
  if u <? 0x8000 then u else u - 0x10000.

(** The switches a MOS-state byte stands for: (charge, discharge). *)
Definition mos_switches (mos : Z) : bool * bool :=
  if mos =? 1 then (true, false)
  else if mos =? 2 then (false, true)
  else if mos =? 3 then (true, true)
  else (false, false).

(** The tentative pair of the switch controller: the prior state with the
    requested switch overwritten. *)
Definition tentative (charge_on discharge_on : bool) (switch : string) (state : bool)
  : bool * bool :=
  if String.eqb switch "charge" then (state, discharge_on)
  else (charge_on, state).

(** ** Diagnostics and derived views *)

(** [debug_data]. *)
Definition debug_data (self : JbdBt) : option (list Z) := _last_response self.

(** The complete frames among the outcomes of the handler, oldest first. *)
Definition completed (hs : list handled) : list (list Z) :=
  flat_map (fun h => match h with Frame _ buf => [buf] | _ => [] end) hs.

(** The MOS-state byte of a pair of switches: bit 0 is the charge path,
    bit 1 the discharge path. *)
Definition mos_of (charge_on discharge_on : bool) : Z :=
  Z.b2z charge_on + 2 * Z.b2z discharge_on.

(** * Properties *)

(** ** Python primitives *)

Lemma is_byte_spec (b : Z) : is_byte b = true <-> 0 <= b < 256.
Proof. unfold is_byte. rewrite andb_true_iff, Z.leb_le, Z.ltb_lt. tauto. Qed.

Lemma bytes_ok (l : list Z) : forallb is_byte l = true -> bytes l = Ok l.
Proof. unfold bytes. now intros ->. Qed.

Lemma to_bytes2_ok (n : Z) : 0 <= n < 65536 -> to_bytes2 n = Ok (be16 n).
Proof.
  intros H. unfold to_bytes2.
  replace (0 <=? n) with true by (symmetry; apply Z.leb_le; lia).
  replace (n <? 65536) with true by (symmetry; apply Z.ltb_lt; lia).
  reflexivity.
Qed.

Lemma fold_sub_sum (l : list Z) (a : Z) :
  fold_left (fun crc i => crc - i) l a = a - byte_sum l.
Proof.
  revert a. induction l as [|x l IH]; intros a; simpl.
  - lia.
  - rewrite IH. lia.
Qed.

Lemma byte_sum_app (l1 l2 : list Z) : byte_sum (l1 ++ l2) = byte_sum l1 + byte_sum l2.
Proof. induction l1 as [|x l1 IH]; simpl; lia. Qed.

Lemma byte_sum_bounds (l : list Z) :
  forallb is_byte l = true -> 0 <= byte_sum l <= 255 * Z.of_nat (length l).
Proof.
  induction l as [|x l IH]; simpl; intros H.
  - lia.
  - apply andb_true_iff in H as [Hx Hl]. apply is_byte_spec in Hx.
    specialize (IH Hl). lia.
Qed.

(** The checksum loop subtracts the command, the length and every data byte
    from [0x10000]; nothing reduces the difference modulo [0x10000]. *)
Lemma jbd_checksum_unfold (cmd : Z) (data : list Z) :
  is_byte cmd = true -> (length data <= 255)%nat ->
  jbd_checksum cmd data =
  to_bytes2 (0x10000 - (cmd + Z.of_nat (length data) + byte_sum data)).
Proof.
  intros Hc Hl. unfold jbd_checksum.
  rewrite bytes_ok.
  - simpl. rewrite fold_sub_sum, byte_sum_app. simpl. f_equal. lia.
  - simpl. rewrite Hc, andb_true_r. apply is_byte_spec. lia.
Qed.

(** ** Command encoder *)

Lemma jbd_command_ok (c : Z) :
  1 <= c <= 255 ->
  _jbd_command c = Ok [0xDD; 0xA5; c; 0x00; 0xFF; 0xFF - (c - 1); 0x77].
Proof.
  intros Hc. unfold _jbd_command. apply bytes_ok. simpl.
  rewrite !andb_true_iff. repeat split; try reflexivity; apply is_byte_spec; lia.
Qed.

(** C6: for every command code [c] in [1, 255] the read request is the
    seven bytes [0xDD, 0xA5, c, 0x00, hi, lo, 0x77] with [hi = 0xFF] and
    [lo = (0xFF - (c - 1)) mod 256], and [hi, lo] is what the checksum
    engine computes for [c] with empty data. *)
Theorem encode_read_checksum (c : Z) :
  1 <= c <= 255 ->
  _jbd_command c = Ok [0xDD; 0xA5; c; 0x00; 0xFF; (0xFF - (c - 1)) mod 256; 0x77]
  /\ jbd_checksum c [] = Ok [0xFF; (0xFF - (c - 1)) mod 256].
Proof.
  intros Hc.
  assert (Hlo : (0xFF - (c - 1)) mod 256 = 0xFF - (c - 1))
    by (apply Z.mod_small; lia).
  rewrite Hlo. split.
  - now apply jbd_command_ok.
  - rewrite jbd_checksum_unfold by (try apply is_byte_spec; simpl; lia).
    rewrite to_bytes2_ok by (simpl; lia).
    unfold be16. simpl length. simpl byte_sum.
    replace ((65536 - (c + Z.of_nat 0 + 0)) / 256) with 255
      by (apply Z.div_unique with (r := 256 - c); lia).
    replace ((65536 - (c + Z.of_nat 0 + 0)) mod 256) with (255 - (c - 1))
      by (apply Z.mod_unique with (q := 255); lia).
    reflexivity.
Qed.

Lemma encode_read_checksum_witness :
  _jbd_command 3 = Ok [0xDD; 0xA5; 3; 0x00; 0xFF; (0xFF - (3 - 1)) mod 256; 0x77]
  /\ jbd_checksum 3 [] = Ok [0xFF; (0xFF - (3 - 1)) mod 256].
Proof. apply (encode_read_checksum 3). lia. Defined.

(** C10: the read request is defined exactly on the command codes in
    [1, 255].  For command 0 the low checksum byte is [0x100], not a byte,
    and building the frame raises; for [c] in [1, 255] the result is a frame
    of seven bytes that begins [0xDD, 0xA5] and ends [0x77]. *)
Theorem encode_read_domain (c : Z) :
  1 <= c <= 255 ->
  (0xFF - (0 - 1) = 0x100 /\ is_byte 0x100 = false
   /\ _jbd_command 0 = Raise ValueError)
  /\ (exists frame, _jbd_command c = Ok frame /\ length frame = 7%nat
        /\ take 2 frame = [0xDD; 0xA5] /\ last frame = Some 0x77)
  /\ (forall c', c' < 1 \/ 255 < c' -> _jbd_command c' = Raise ValueError).
Proof.
  intros Hc. split; [repeat split|split].
  - rewrite (jbd_command_ok c Hc). eexists. repeat split.
  - intros c' Hc'. unfold _jbd_command, bytes. simpl.
    destruct (is_byte c') eqn:E1; [|reflexivity].
    destruct (is_byte (255 - (c' - 1))) eqn:E2; [|reflexivity].
    apply is_byte_spec in E1, E2. lia.
Qed.

Lemma encode_read_domain_witness :
  (0xFF - (0 - 1) = 0x100 /\ is_byte 0x100 = false
   /\ _jbd_command 0 = Raise ValueError)
  /\ (exists frame, _jbd_command 4 = Ok frame /\ length frame = 7%nat
        /\ take 2 frame = [0xDD; 0xA5] /\ last frame = Some 0x77)
  /\ (forall c', c' < 1 \/ 255 < c' -> _jbd_command c' = Raise ValueError).
Proof. apply (encode_read_domain 4). lia. Defined.

(** ** Checksum engine *)

(** C2, as the code has it: for every command byte and every data of at
    most 255 bytes, command 0 with empty data apart, the checksum is the
    big-endian encoding of [(0x10000 - (command + length + sum)) mod 0x10000];
    for command [0xE1] and data [0x00, 0x00] it is the encoding of
    [(0x10000 - 0xE1 - 2 - 0 - 0) mod 0x10000]. *)
Theorem checksum_encoding (command : Z) (data : list Z) :
  is_byte command = true ->
  forallb is_byte data = true ->
  (length data <= 255)%nat ->
  0 < command + Z.of_nat (length data) + byte_sum data ->
  jbd_checksum command data = Ok (spec_checksum command data)
  /\ jbd_checksum 0xE1 [0x00; 0x00]
     = Ok (be16 ((0x10000 - 0xE1 - 2 - 0 - 0) mod 0x10000)).
Proof.
  intros Hc Hd Hl Hpos. split; [|reflexivity].
  rewrite jbd_checksum_unfold by assumption.
  apply is_byte_spec in Hc. pose proof (byte_sum_bounds data Hd) as Hs.
  rewrite to_bytes2_ok by lia.
  unfold spec_checksum. rewrite Z.mod_small by lia. reflexivity.
Qed.

Lemma checksum_encoding_witness :
  jbd_checksum 0xE1 [0x00; 0x01] = Ok (spec_checksum 0xE1 [0x00; 0x01])
  /\ jbd_checksum 0xE1 [0x00; 0x00]
     = Ok (be16 ((0x10000 - 0xE1 - 2 - 0 - 0) mod 0x10000)).
Proof.
  apply (checksum_encoding 0xE1 [0x00; 0x01]);
    [reflexivity | reflexivity | simpl; lia | simpl; lia].
Defined.

(** C2, as stated, fails for command 0 with empty data: the difference is
    [0x10000] itself, which does not fit two bytes, and the conversion
    raises instead of returning the encoding of 0. *)
Lemma checksum_zero_overflows :
  is_byte 0 = true /\ spec_checksum 0 [] = [0; 0]
  /\ jbd_checksum 0 [] = Raise OverflowError
  /\ jbd_checksum 0 [] <> Ok (spec_checksum 0 []).
Proof. repeat split. discriminate. Qed.

(** ** Switch controller *)

Lemma switch_message (tc : Z) :
  0 <= tc <= 3 ->
  jbd_message 0x5A 0xE1 [0x00; tc]
  = Ok [0xDD; 0x5A; 0xE1; 0x02; 0x00; tc; 0xFF; 0x1D - tc; 0x77].
Proof.
  intros H.
  assert (E : tc = 0 \/ tc = 1 \/ tc = 2 \/ tc = 3) by lia.
  destruct E as [-> | [-> | [-> | ->]]]; reflexivity.
Qed.

Lemma switch_tc_range (cached : gmap string bool) (switch : string) (state : bool) :
  0 <= switch_tc cached switch state <= 3.
Proof.
  unfold switch_tc.
  repeat match goal with |- context [if ?b then _ else _] => destruct b end; lia.
Qed.

(** With a cached state, [set_switch] only computes the control byte and
    writes the command; nothing else of the instance changes. *)
Lemma set_switch_cached (switch : string) (state : bool) (self : JbdBt)
    (env : list event) :
  String.eqb switch "charge" || String.eqb switch "discharge" = true ->
  switches_unset self = false ->
  set_switch switch state self env
  = (Return tt,
     write_gatt_char self
       (let tc := switch_tc (default ∅ (_switches self)) switch state in
        [0xDD; 0x5A; 0xE1; 0x02; 0x00; tc; 0xFF; 0x1D - tc; 0x77]),
     env).
Proof.
  intros Hsw Hset. unfold set_switch, bind, lift, get, ret, modify.
  rewrite Hsw, Hset.
  pose proof (switch_tc_range (default ∅ (_switches self)) switch state) as Hr.
  rewrite bytes_ok by (simpl; rewrite andb_true_r; apply is_byte_spec; lia).
  rewrite switch_message by assumption. reflexivity.
Qed.

(** C3: for each of the 4 prior states, each of the 2 switches and each
    desired state, the control byte computed from the tentative pair is the
    one of the table (both on [0x00], both off [0x03], charge off and
    discharge on [0x01], charge on and discharge off [0x02]), and it is the
    byte [set_switch] sends in its write command. *)
Theorem control_byte_table (charge_on discharge_on : bool) (switch : string)
    (state : bool) (self : JbdBt) (env : list event) :
  switch = "charge" \/ switch = "discharge" ->
  _switches self = Some (switch_state charge_on discharge_on) ->
  let '(c, d) := tentative charge_on discharge_on switch state in
  <[switch := state]> (switch_state charge_on discharge_on) = switch_state c d
  /\ switch_tc (switch_state charge_on discharge_on) switch state = control_table c d
  /\ exists hi lo,
       set_switch switch state self env
       = (Return tt,
          write_gatt_char self
            [0xDD; 0x5A; 0xE1; 0x02; 0x00; control_table c d; hi; lo; 0x77],
          env).
Proof.
  intros Hsw Hcache.
  assert (Htc : switch_tc (switch_state charge_on discharge_on) switch state
                = (let '(c, d) := tentative charge_on discharge_on switch state in
                   control_table c d)).
  { destruct Hsw as [-> | ->], charge_on, discharge_on, state; vm_compute; reflexivity. }
  assert (Hmap : <[switch := state]> (switch_state charge_on discharge_on)
                 = (let '(c, d) := tentative charge_on discharge_on switch state in
                    switch_state c d)).
  { destruct Hsw as [-> | ->], charge_on, discharge_on, state; vm_compute; reflexivity. }
  assert (Hrun := set_switch_cached switch state self env).
  rewrite Hcache in Hrun. simpl default in Hrun. rewrite Htc in Hrun.
  destruct (tentative charge_on discharge_on switch state) as [c d].
  split; [exact Hmap|]. split; [exact Htc|].
  eexists _, _. apply Hrun.
  - destruct Hsw as [-> | ->]; reflexivity.
  - unfold switches_unset. rewrite Hcache.
    destruct charge_on, discharge_on; vm_compute; reflexivity.
Qed.

Lemma control_byte_table_witness :
  let '(c, d) := tentative true true "charge" false in
  <["charge" := false]> (switch_state true true) = switch_state c d
  /\ switch_tc (switch_state true true) "charge" false = control_table c d
  /\ exists hi lo,
       set_switch "charge" false (set_switches init (Some (switch_state true true))) []
       = (Return tt,
          write_gatt_char (set_switches init (Some (switch_state true true)))
            [0xDD; 0x5A; 0xE1; 0x02; 0x00; control_table c d; hi; lo; 0x77],
          []).
Proof.
  apply (control_byte_table true true "charge" false
           (set_switches init (Some (switch_state true true))) []).
  - left. reflexivity.
  - reflexivity.
Defined.

(** ** Frame assembler *)

Lemma endswith_app (buf data : list Z) (t : Z) :
  nonempty data = true -> endswith (buf ++ data) t = endswith data t.
Proof.
  intros Hne. unfold endswith. rewrite last_app.
  destruct (last data) eqn:E; [reflexivity|].
  apply last_None in E. subst data. discriminate.
Qed.

(** A chunk that does not end with the terminator is only buffered. *)
Lemma handler_buffers (self : JbdBt) (data : list Z) :
  nonempty data = true -> endswith data 0x77 = false ->
  _notification_handler self data = (set_buffer self (_buffer self ++ data), NoFrame).
Proof.
  intros Hne Hend. unfold _notification_handler. simpl _buffer.
  rewrite endswith_app, Hend by assumption. reflexivity.
Qed.

(** A chunk that ends with the terminator completes the frame, when the
    buffer then holds the command byte. *)
Lemma handler_completes (self : JbdBt) (data : list Z) (command : Z) :
  nonempty data = true -> endswith data 0x77 = true ->
  (_buffer self ++ data) !! 1%nat = Some command ->
  _notification_handler self data
  = (set_fetch_futures
       (set_last_response (set_buffer self []) (Some (_buffer self ++ data)))
       (set_result (_fetch_futures self) command (_buffer self ++ data)),
     Frame command (_buffer self ++ data)).
Proof.
  intros Hne Hend Hcmd. unfold _notification_handler. simpl _buffer.
  rewrite endswith_app, Hend by assumption.
  unfold index. rewrite Hcmd. reflexivity.
Qed.

Lemma feed_app (self : JbdBt) (cs1 cs2 : list (list Z)) :
  feed self (cs1 ++ cs2)
  = (fst (feed (fst (feed self cs1)) cs2),
     snd (feed self cs1) ++ snd (feed (fst (feed self cs1)) cs2)).
Proof.
  revert self. induction cs1 as [|c cs1 IH]; intros self; simpl.
  - now destruct (feed self cs2).
  - destruct (_notification_handler self c) as [self1 h].
    rewrite IH. destruct (feed self1 cs1) as [self2 hs]. simpl.
    destruct (feed self2 cs2) as [self3 hs']. simpl.
    destruct h; reflexivity.
Qed.

(** Chunks that do not end with the terminator accumulate in the buffer and
    complete nothing. *)
Lemma feed_buffers (self : JbdBt) (chunks : list (list Z)) :
  forallb nonempty chunks = true ->
  forallb (fun c => negb (endswith c 0x77)) chunks = true ->
  feed self chunks = (set_buffer self (_buffer self ++ concat chunks), []).
Proof.
  revert self. induction chunks as [|c chunks IH]; intros self Hne Hq; simpl.
  - rewrite app_nil_r. now destruct self.
  - simpl in Hne, Hq. apply andb_true_iff in Hne as [Hc Hne].
    apply andb_true_iff in Hq as [Hqc Hq]. apply negb_true_iff in Hqc.
    rewrite handler_buffers, IH by assumption. simpl.
    now rewrite <- app_assoc.
Qed.

(** The split of a well-formed frame: the chunks before the last one, the
    last one, which ends with the terminator, and the command byte. *)
Lemma well_formed_split (frame : list Z) (chunks : list (list Z)) :
  well_formed frame = true -> concat chunks = frame ->
  forallb nonempty chunks = true ->
  exists front final command,
    chunks = front ++ [final] /\ forallb nonempty front = true
    /\ nonempty final = true /\ endswith final 0x77 = true
    /\ frame = concat front ++ final /\ frame !! 1%nat = Some command.
Proof.
  intros Hwf Hcat Hne.
  destruct (exists_last (l := chunks)) as [front [final ->]].
  { intros ->. simpl in Hcat. subst frame. discriminate. }
  rewrite forallb_app in Hne. apply andb_true_iff in Hne as [Hfront Hfinal].
  simpl in Hfinal. rewrite andb_true_r in Hfinal.
  rewrite concat_app in Hcat. simpl in Hcat. rewrite app_nil_r in Hcat.
  destruct frame as [|b0 [|b1 rest]]; try discriminate.
  - exfalso. unfold well_formed, endswith in Hwf. simpl in Hwf.
    apply andb_true_iff in Hwf as [H1 H2].
    apply Z.eqb_eq in H1, H2. lia.
  - exists front, final, b1.
    repeat split; try assumption; try (symmetry; assumption); try reflexivity.
    unfold well_formed in Hwf. apply andb_true_iff in Hwf as [_ Hend].
    rewrite <- Hcat in Hend. now rewrite endswith_app in Hend.
Qed.

(** C1, as the code has it: for every well-formed frame and every split of
    it into non-empty chunks of which none but the last ends with the
    terminator byte (one byte at a time included, when no inner byte is
    [0x77]), feeding the chunks in order to the notification handler, from
    an empty buffer, yields exactly one complete-frame event, whose content
    is the whole frame, and the buffer is empty afterward. *)
Theorem assembler_single_frame (frame : list Z) (chunks : list (list Z))
    (self : JbdBt) :
  well_formed frame = true ->
  concat chunks = frame ->
  forallb nonempty chunks = true ->
  quiet_split chunks = true ->
  _buffer self = [] ->
  exists command self',
    frame !! 1%nat = Some command
    /\ feed self chunks = (self', [Frame command frame])
    /\ _buffer self' = []
    /\ _last_response self' = Some frame.
Proof.
  intros Hwf Hcat Hne Hq Hbuf.
  destruct (well_formed_split frame chunks Hwf Hcat Hne)
    as (front & final & command & -> & Hfront & Hfinal & Hend & Hframe & Hcmd).
  unfold quiet_split in Hq. rewrite removelast_last in Hq.
  exists command. eexists. split; [exact Hcmd|].
  rewrite feed_app, (feed_buffers self front) by assumption. simpl fst. simpl snd.
  simpl feed. rewrite Hbuf. simpl app.
  rewrite (handler_completes _ final command); simpl _buffer;
    rewrite <- ?Hframe; try assumption.
  repeat split.
Qed.

Lemma assembler_single_frame_witness :
  exists command self',
    [0xDD; 0x03; 0x00; 0x02; 0x0C; 0xE4; 0xFF; 0x0E; 0x77] !! 1%nat = Some command
    /\ feed init [[0xDD]; [0x03; 0x00]; [0x02; 0x0C; 0xE4; 0xFF]; [0x0E]; [0x77]]
       = (self', [Frame command [0xDD; 0x03; 0x00; 0x02; 0x0C; 0xE4; 0xFF; 0x0E; 0x77]])
    /\ _buffer self' = []
    /\ _last_response self' = Some [0xDD; 0x03; 0x00; 0x02; 0x0C; 0xE4; 0xFF; 0x0E; 0x77].
Proof.
  apply (assembler_single_frame
           [0xDD; 0x03; 0x00; 0x02; 0x0C; 0xE4; 0xFF; 0x0E; 0x77]
           [[0xDD]; [0x03; 0x00]; [0x02; 0x0C; 0xE4; 0xFF]; [0x0E]; [0x77]]
           init); reflexivity.
Defined.

(** C1, as stated, fails: a frame whose payload holds the byte [0x77], fed
    one byte at a time, completes a first event at that byte, with a part
    of the frame, and a second one at the real terminator, with the rest. *)
Lemma assembler_inner_terminator :
  let frame := [0xDD; 0x03; 0x00; 0x02; 0x77; 0x00; 0xFF; 0x87; 0x77] in
  let chunks := map (fun b => [b]) frame in
  well_formed frame = true /\ concat chunks = frame
  /\ forallb nonempty chunks = true
  /\ snd (feed init chunks)
     = [Frame 0x03 [0xDD; 0x03; 0x00; 0x02; 0x77];
        Frame 0xFF [0x00; 0xFF; 0x87; 0x77]]
  /\ ~ (exists command self', feed init chunks = (self', [Frame command frame])).
Proof.
  cbv zeta. do 4 (split; [reflexivity|]).
  intros (command & self' & H). vm_compute in H. discriminate H.
Qed.

(** ** Slices and fixed-offset fields *)

Lemma slice_two (l : list Z) (a b : nat) :
  (b - a = 2)%nat -> (a + 2 <= length l)%nat ->
  slice l a b = [nth a l 0; nth (S a) l 0].
Proof.
  intros Hab Hlen. unfold slice. rewrite Hab. clear Hab. revert l Hlen.
  induction a as [|a IH]; intros l Hlen.
  - destruct l as [|x [|y l]]; simpl in *; try lia. reflexivity.
  - destruct l as [|x l]; simpl in *; try lia. apply IH. lia.
Qed.

Lemma slice_one (l : list Z) (a b : nat) :
  (b - a = 1)%nat -> (a + 1 <= length l)%nat ->
  slice l a b = [nth a l 0].
Proof.
  intros Hab Hlen. unfold slice. rewrite Hab. clear Hab. revert l Hlen.
  induction a as [|a IH]; intros l Hlen.
  - destruct l as [|x l]; simpl in *; try lia. reflexivity.
  - destruct l as [|x l]; simpl in *; try lia. apply IH. lia.
Qed.

Lemma slice_prefix (p r : list Z) (x y : Z) (a b : nat) :
  a = length p -> (b - a = 2)%nat -> slice (p ++ x :: y :: r) a b = [x; y].
Proof.
  intros -> Hab. unfold slice. now rewrite Hab, drop_app_length.
Qed.

Lemma index_ok (l : list Z) (i : nat) :
  (i < length l)%nat -> index l i = Ok (nth i l 0).
Proof.
  intros H. unfold index.
  destruct (lookup_lt_is_Some_2 l i H) as [x Hx].
  now rewrite (nth_lookup_Some _ _ 0 _ Hx), Hx.
Qed.

Lemma index_short (l : list Z) (i : nat) :
  (length l <= i)%nat -> index l i = Raise IndexError.
Proof.
  intros H. unfold index. now rewrite lookup_ge_None_2.
Qed.

Lemma from_bytes_unsigned2 (x y : Z) : from_bytes [x; y] false = 256 * x + y.
Proof. unfold from_bytes, be_value. simpl. lia. Qed.

Lemma from_bytes_unsigned1 (x : Z) : from_bytes [x] false = x.
Proof. reflexivity. Qed.

Lemma from_bytes_signed2 (x y : Z) :
  from_bytes [x; y] true
  = if 256 * x + y <? 0x8000 then 256 * x + y else 256 * x + y - 0x10000.
Proof.
  unfold from_bytes, be_value. simpl fold_left. simpl length.
  change (8 * Z.of_nat 2) with 16. change (2 ^ (16 - 1)) with 32768.
  change (2 ^ 16) with 65536. change (16 =? 0) with false. simpl andb.
  replace ((0 * 256 + x) * 256 + y) with (256 * x + y) by lia.
  destruct (Z.leb_spec 32768 (256 * x + y)), (Z.ltb_spec (256 * x + y) 32768);
    try lia; reflexivity.
Qed.

Lemma from_bytes_be16 (v : Z) : from_bytes (be16 v) false = v.
Proof.
  unfold be16. rewrite from_bytes_unsigned2.
  pose proof (Z.div_mod v 256). lia.
Qed.

(** The switches of the decoded sample follow the MOS-state byte. *)
Lemma mos_byte_switches (mos : Z) :
  <["discharge" := (mos =? 2) || (mos =? 3)]>
    (<["charge" := (mos =? 1) || (mos =? 3)]> (∅ : gmap string bool))
  = (let '(c, d) := mos_switches mos in switch_state c d).
Proof.
  unfold mos_switches.
  destruct (Z.eqb_spec mos 1) as [->|]; [reflexivity|].
  destruct (Z.eqb_spec mos 2) as [->|]; [reflexivity|].
  destruct (Z.eqb_spec mos 3) as [->|]; reflexivity.
Qed.

(** A request that returned a frame hands it to the decoder; what the
    decoder raises reaches the caller, with the cache untouched. *)
Lemma fetch_run (self : JbdBt) (env : list event) (frame : list Z)
    (self1 : JbdBt) (env1 : list event) :
  _q 0x03 self env = (Return frame, self1, env1) ->
  fetch self env
  = match fetch_decode frame with
    | Ok sample => (Return sample, set_switches self1 (Some (switches sample)), env1)
    | Raise e => (Throw e, self1, env1)
    end.
Proof.
  intros H. unfold fetch, bind, lift, modify, ret. rewrite H.
  now destruct (fetch_decode frame).
Qed.

Lemma fetch_voltages_run (self : JbdBt) (env : list event) (frame : list Z)
    (self1 : JbdBt) (env1 : list event) :
  _q 0x04 self env = (Return frame, self1, env1) ->
  fetch_voltages self env
  = match voltages_decode frame with
    | Ok cells => (Return cells, self1, env1)
    | Raise e => (Throw e, self1, env1)
    end.
Proof.
  intros H. unfold fetch_voltages, bind, lift. now rewrite H.
Qed.

Lemma decode_cells (cells : list Z) :
  forall (p rest : list Z) (k : nat), k = length p ->
  map (fun i => from_bytes
                  (slice (p ++ flat_map be16 cells ++ rest) (k + i * 2) (i * 2 + (k + 2)))
                  false)
      (seq 0 (length cells))
  = cells.
Proof.
  induction cells as [|v cells IH]; intros p rest k Hk; [reflexivity|].
  simpl length. simpl seq. rewrite <- seq_shift. simpl map. rewrite map_map.
  f_equal.
  - simpl flat_map. unfold be16 at 1. simpl app.
    rewrite slice_prefix by lia. apply from_bytes_be16.
  - rewrite <- (IH (p ++ be16 v) rest (k + 2)%nat) at 2
      by (rewrite length_app; simpl; lia).
    apply map_ext. intros i. simpl flat_map.
    rewrite <- !app_assoc. do 2 f_equal; lia.
Qed.

(** ** Telemetry decoder *)

(** C4: for every response frame for command [0x03] whose payload (the
    frame after its 4-byte header) holds the fixed fields and the announced
    temperatures, [fetch] returns the sample with
    voltage = unsigned_be16(payload[0:2]) / 100,
    current = -(signed_be16(payload[2:4])) / 100,
    charge = unsigned_be16(payload[4:6]) / 100,
    capacity = unsigned_be16(payload[6:8]) / 100,
    cycle count = unsigned_be16(payload[8:10]), soc = payload[19],
    the announced number of temperatures (raw16 - 2731) / 10 read from
    offset 23 on, and the switches of the MOS-state byte (1: charge only,
    2: discharge only, 3: both, otherwise none); voltage raw [0x012C] and
    current raw [0x0064] give voltage 3 and current -1. *)
Theorem telemetry_fields (self : JbdBt) (env : list event) (frame : list Z)
    (self1 : JbdBt) (env1 : list event) :
  _q 0x03 self env = (Return frame, self1, env1) ->
  let payload := drop 4 frame in
  let num_temp := Z.to_nat (byte_at payload 22) in
  (23 + 2 * num_temp <= length payload)%nat ->
  exists sample,
    fetch self env = (Return sample, set_switches self1 (Some (switches sample)), env1)
    /\ voltage sample = truediv (unsigned_be16 payload 0) 100
    /\ current sample = truediv (- signed_be16 payload 2) 100
    /\ charge sample = truediv (unsigned_be16 payload 4) 100
    /\ capacity sample = truediv (unsigned_be16 payload 6) 100
    /\ num_cycles sample = unsigned_be16 payload 8
    /\ soc sample = byte_at payload 19
    /\ temperatures sample
       = map (fun i => truediv (unsigned_be16 payload (23 + 2 * i) - 2731) 10)
             (seq 0 num_temp)
    /\ switches sample
       = (let '(c, d) := mos_switches (byte_at payload 20) in switch_state c d)
    /\ (unsigned_be16 payload 0 = 0x012C -> signed_be16 payload 2 = 0x0064 ->
        voltage sample = Q2Qc 3 /\ current sample = Q2Qc (-1)).
Proof.
  intros Hq payload num_temp Hlen.
  rewrite (fetch_run _ _ _ _ _ Hq). unfold fetch_decode. cbv zeta.
  change (drop 4 frame) with payload. clearbody payload. clear Hq.
  rewrite (index_ok payload 19) by lia. simpl rbind.
  eexists. split; [reflexivity|]. cbn [voltage current charge capacity soc
    num_cycles temperatures switches].
  rewrite !(slice_two payload) by lia.
  rewrite !(slice_one payload) by lia.
  rewrite !from_bytes_unsigned2, !from_bytes_unsigned1, from_bytes_signed2.
  assert (Hv : truediv (256 * nth 0 payload 0 + nth 1 payload 0) 100
               = truediv (unsigned_be16 payload 0) 100) by reflexivity.
  assert (Hc : truediv (- (if 256 * nth 2 payload 0 + nth 3 payload 0 <? 32768
                           then 256 * nth 2 payload 0 + nth 3 payload 0
                           else 256 * nth 2 payload 0 + nth 3 payload 0 - 65536)) 100
               = truediv (- signed_be16 payload 2) 100) by reflexivity.
  repeat split; try reflexivity.
  - apply map_ext_in. intros i Hi. apply in_seq in Hi.
    rewrite slice_two by (fold num_temp; lia).
    rewrite from_bytes_unsigned2. unfold unsigned_be16, byte_at.
    replace (23 + 2 * i)%nat with (23 + i * 2)%nat by lia. reflexivity.
  - apply mos_byte_switches.
  - rewrite Hv, H. now apply Qc_is_canon.
  - rewrite Hc, H0. now apply Qc_is_canon.
Qed.

Lemma telemetry_fields_witness :
  let frame := [0xDD; 0x03; 0x00; 0x1B; 0x01; 0x2C; 0x00; 0x64; 0x00; 0x0A;
                0x00; 0x14; 0x00; 0x05; 0x00; 0x00; 0x00; 0x00; 0x00; 0x00;
                0x00; 0x00; 0x00; 0x32; 0x03; 0x04; 0x02; 0x0B; 0xAB; 0x0B;
                0xB5; 0xFD; 0x80; 0x77] in
  let env := [Notify (take 10 frame); Tick; Notify (drop 10 frame); Tick] in
  let payload := drop 4 frame in
  exists sample,
    fetch init env
    = (Return sample,
       set_switches (snd (fst (_q 0x03 init env))) (Some (switches sample)), [Tick])
    /\ voltage sample = truediv (unsigned_be16 payload 0) 100
    /\ current sample = truediv (- signed_be16 payload 2) 100
    /\ charge sample = truediv (unsigned_be16 payload 4) 100
    /\ capacity sample = truediv (unsigned_be16 payload 6) 100
    /\ num_cycles sample = unsigned_be16 payload 8
    /\ soc sample = byte_at payload 19
    /\ temperatures sample
       = map (fun i => truediv (unsigned_be16 payload (23 + 2 * i) - 2731) 10)
             (seq 0 (Z.to_nat (byte_at payload 22)))
    /\ switches sample
       = (let '(c, d) := mos_switches (byte_at payload 20) in switch_state c d)
    /\ (unsigned_be16 payload 0 = 0x012C -> signed_be16 payload 2 = 0x0064 ->
        voltage sample = Q2Qc 3 /\ current sample = Q2Qc (-1)).
Proof.
  intros frame env payload.
  apply (telemetry_fields init env frame (snd (fst (_q 0x03 init env))) [Tick]).
  - vm_compute. reflexivity.
  - vm_compute. lia.
Defined.

(** ** Cell voltage decoder *)

(** C7: for every response frame for command [0x04] whose length byte, at
    offset 3, is [2 * n] and whose payload, from offset 4 on, holds [n]
    two-byte big-endian millivolt values, [fetch_voltages] returns those [n]
    values in index order; four cells of raw value 3300 give
    [3300, 3300, 3300, 3300]. *)
Theorem cell_voltages (self : JbdBt) (env : list event) (frame : list Z)
    (self1 : JbdBt) (env1 : list event) (h0 h1 h2 : Z) (cells rest : list Z) :
  _q 0x04 self env = (Return frame, self1, env1) ->
  frame = [h0; h1; h2; 2 * Z.of_nat (length cells)] ++ flat_map be16 cells ++ rest ->
  forallb (fun v => (0 <=? v) && (v <? 0x10000)) cells = true ->
  fetch_voltages self env = (Return cells, self1, env1).
Proof.
  intros Hq -> _. rewrite (fetch_voltages_run _ _ _ _ _ Hq).
  unfold voltages_decode. rewrite index_ok by (simpl; lia).
  simpl nth. simpl rbind.
  replace (Z.to_nat (Z.quot (2 * Z.of_nat (length cells)) 2)) with (length cells).
  - apply (f_equal (fun x : list Z => (Return x, self1, env1))).
    exact (decode_cells cells [h0; h1; h2; 2 * Z.of_nat (length cells)] rest 4 eq_refl).
  - rewrite Z.mul_comm, Z.quot_mul by lia. now rewrite Nat2Z.id.
Qed.

Lemma cell_voltages_witness :
  let frame := [0xDD; 0x04; 0x00; 0x08; 0x0C; 0xE4; 0x0C; 0xE4; 0x0C; 0xE4;
                0x0C; 0xE4; 0xFC; 0x38; 0x77] in
  let env := [Notify (take 6 frame); Notify (drop 6 frame)] in
  fetch_voltages init env
  = (Return [3300; 3300; 3300; 3300], snd (fst (_q 0x04 init env)), []).
Proof.
  intros frame env.
  apply (cell_voltages init env frame (snd (fst (_q 0x04 init env))) []
           0xDD 0x04 0x00 [3300; 3300; 3300; 3300] [0xFC; 0x38; 0x77]);
    vm_compute; reflexivity.
Defined.

(** ** Short frames *)

(** C8, as the code has it: no decoder checks the length of the payload,
    and there is no malformed-frame error.  [fetch] raises [IndexError],
    which reaches its caller, exactly when the payload stops before the
    state-of-charge byte (a frame of fewer than 24 bytes), and
    [fetch_voltages] exactly when the frame stops before its length byte
    (fewer than 4 bytes); every longer frame is decoded, the missing bytes
    of a field being left out of its value, and the result is returned. *)
Theorem short_frames (self : JbdBt) (env : list event) (frame : list Z)
    (self1 : JbdBt) (env1 : list event)
    (vself : JbdBt) (venv : list event) (vframe : list Z)
    (vself1 : JbdBt) (venv1 : list event) :
  _q 0x03 self env = (Return frame, self1, env1) ->
  _q 0x04 vself venv = (Return vframe, vself1, venv1) ->
  ((length frame < 24)%nat ->
     fetch self env = (Throw IndexError, self1, env1))
  /\ ((24 <= length frame)%nat ->
        exists sample,
          fetch self env
          = (Return sample, set_switches self1 (Some (switches sample)), env1))
  /\ ((length vframe < 4)%nat ->
        fetch_voltages vself venv = (Throw IndexError, vself1, venv1))
  /\ ((4 <= length vframe)%nat ->
        exists cells,
          fetch_voltages vself venv = (Return cells, vself1, venv1)
          /\ length cells = Z.to_nat (Z.quot (byte_at vframe 3) 2)).
Proof.
  intros Hq Hv.
  rewrite (fetch_run _ _ _ _ _ Hq), (fetch_voltages_run _ _ _ _ _ Hv).
  unfold fetch_decode, voltages_decode. cbv zeta.
  repeat split.
  - intros Hlen. rewrite index_short; [reflexivity|]. rewrite length_drop. lia.
  - intros Hlen. rewrite index_ok by (rewrite length_drop; lia).
    simpl rbind. eexists. reflexivity.
  - intros Hlen. rewrite index_short by lia. reflexivity.
  - intros Hlen. rewrite index_ok by lia. simpl rbind. eexists.
    split; [reflexivity|]. now rewrite length_map, length_seq.
Qed.

Lemma short_frames_witness :
  let env := [Notify [0xDD; 0x03; 0x00; 0x1B; 0x01; 0x77]] in
  let self1 := snd (fst (_q 0x03 init env)) in
  let venv := [Notify [0xDD; 0x04; 0x00; 0x08; 0x77]] in
  let vself1 := snd (fst (_q 0x04 init venv)) in
  ((length [0xDD; 0x03; 0x00; 0x1B; 0x01; 0x77] < 24)%nat ->
     fetch init env = (Throw IndexError, self1, []))
  /\ ((24 <= length [0xDD; 0x03; 0x00; 0x1B; 0x01; 0x77])%nat ->
        exists sample,
          fetch init env
          = (Return sample, set_switches self1 (Some (switches sample)), []))
  /\ ((length [0xDD; 0x04; 0x00; 0x08; 0x77] < 4)%nat ->
        fetch_voltages init venv = (Throw IndexError, vself1, []))
  /\ ((4 <= length [0xDD; 0x04; 0x00; 0x08; 0x77])%nat ->
        exists cells,
          fetch_voltages init venv = (Return cells, vself1, [])
          /\ length cells
             = Z.to_nat (Z.quot (byte_at [0xDD; 0x04; 0x00; 0x08; 0x77] 3) 2)).
Proof.
  intros env self1 venv vself1.
  apply (short_frames init env [0xDD; 0x03; 0x00; 0x1B; 0x01; 0x77] self1 []
           init venv [0xDD; 0x04; 0x00; 0x08; 0x77] vself1 []);
    vm_compute; reflexivity.
Defined.

(** C8, as stated, fails: a cell-voltage response that announces 8 payload
    bytes and carries none is decoded, from the terminator byte and from
    empty slices, into four values that are returned to the caller; a
    telemetry response cut after its state-of-charge byte is decoded too. *)
Lemma short_frame_decoded :
  fst (fst (fetch_voltages init [Notify [0xDD; 0x04; 0x00; 0x08; 0x77]]))
  = Return [0x77; 0; 0; 0]
  /\ (exists sample,
        fst (fst (fetch init
                    [Notify [0xDD; 0x03; 0x00; 0x1B; 0x01; 0x2C; 0x00; 0x64; 0x00;
                             0x0A; 0x00; 0x14; 0x00; 0x05; 0x00; 0x00; 0x00; 0x00;
                             0x00; 0x00; 0x00; 0x00; 0x00; 0x77]]))
        = Return sample).
Proof.
  split; [reflexivity|]. eexists. vm_compute. reflexivity.
Qed.

(** ** Switch-state cache *)

Lemma fetch_caches (self : JbdBt) (env : list event) (sample : BmsSample)
    (self1 : JbdBt) (env1 : list event) :
  fetch self env = (Return sample, self1, env1) ->
  _switches self1 = Some (switches sample).
Proof.
  unfold fetch, bind, lift, modify, ret. intros H.
  destruct (_q 3 self env) as [[[frame| |] s] e]; try discriminate.
  destruct (fetch_decode frame); try discriminate.
  injection H as -> <- _. reflexivity.
Qed.

(** The dictionary a fetch caches has its two keys. *)
Lemma fetch_cache_set (self : JbdBt) (env : list event) (sample : BmsSample)
    (self1 : JbdBt) (env1 : list event) :
  fetch self env = (Return sample, self1, env1) ->
  switches_unset self1 = false.
Proof.
  intros H. unfold switches_unset. rewrite (fetch_caches _ _ _ _ _ H).
  revert H. unfold fetch, bind, lift, modify, ret.
  destruct (_q 3 self env) as [[[frame| |] s] e]; try discriminate.
  unfold fetch_decode.
  destruct (index (drop 4 frame) 19); simpl; try discriminate.
  intros H. injection H as <- _ _. simpl switches.
  apply bool_decide_eq_false. intros E.
  apply (f_equal (fun m : gmap string bool => m !! "discharge")) in E.
  rewrite lookup_insert_eq, lookup_empty in E. discriminate.
Qed.

(** C9, as the code has it: the cache is filled by the first telemetry
    fetch, which a switch command runs itself when the cache is unset, and
    it is overwritten by every later successful telemetry fetch; a switch
    command never writes the requested change to it: after [set_switch] the
    cache is the state of the last fetch. *)
Theorem switch_cache (self : JbdBt) (env : list event) (sample : BmsSample)
    (self1 : JbdBt) (env1 : list event) (switch : string) (state : bool) :
  switch = "charge" \/ switch = "discharge" ->
  fetch self env = (Return sample, self1, env1) ->
  _switches self1 = Some (switches sample)
  /\ (switches_unset self = true ->
        exists self2,
          set_switch switch state self env = (Return tt, self2, env1)
          /\ _switches self2 = Some (switches sample))
  /\ (forall s e, switches_unset s = false ->
        exists s2,
          set_switch switch state s e = (Return tt, s2, e)
          /\ _switches s2 = _switches s).
Proof.
  intros Hsw Hfetch.
  assert (Hvalid : String.eqb switch "charge" || String.eqb switch "discharge" = true)
    by (destruct Hsw as [-> | ->]; reflexivity).
  split; [exact (fetch_caches _ _ _ _ _ Hfetch)|]. split.
  - intros Hunset.
    pose proof (set_switch_cached switch state self1 env1 Hvalid
                  (fetch_cache_set _ _ _ _ _ Hfetch)) as Hrun.
    eexists. split.
    + unfold set_switch, bind, lift, get, ret in Hrun |- *.
      rewrite Hvalid in Hrun |- *.
      rewrite (fetch_cache_set _ _ _ _ _ Hfetch) in Hrun.
      rewrite Hunset, Hfetch. exact Hrun.
    + simpl. exact (fetch_caches _ _ _ _ _ Hfetch).
  - intros s e Hset. eexists. split.
    + exact (set_switch_cached switch state s e Hvalid Hset).
    + reflexivity.
Qed.

Lemma switch_cache_witness :
  let env := [Notify [0xDD; 0x03; 0x00; 0x1B; 0x01; 0x2C; 0x00; 0x64; 0x00; 0x0A;
                      0x00; 0x14; 0x00; 0x05; 0x00; 0x00; 0x00; 0x00; 0x00; 0x00;
                      0x00; 0x00; 0x00; 0x32; 0x03; 0x04; 0x02; 0x0B; 0xAB; 0x0B;
                      0xB5; 0xFD; 0x80; 0x77]] in
  let sample :=
    match fst (fst (fetch init env)) with
    | Return sample => sample
    | _ => mkBmsSample (Q2Qc 0) (Q2Qc 0) (Q2Qc 0) (Q2Qc 0) 0 0 [] ∅
    end in
  fst (fst (fetch init env)) = Return sample
  /\ _switches (snd (fst (fetch init env))) = Some (switches sample)
  /\ (switches_unset init = true ->
        exists self2,
          set_switch "discharge" false init env = (Return tt, self2, [])
          /\ _switches self2 = Some (switches sample))
  /\ (forall s e, switches_unset s = false ->
        exists s2,
          set_switch "discharge" false s e = (Return tt, s2, e)
          /\ _switches s2 = _switches s).
Proof.
  intros env sample. split; [vm_compute; reflexivity|].
  apply (switch_cache init env sample (snd (fst (fetch init env))) []
           "discharge" false).
  - right. reflexivity.
  - vm_compute. reflexivity.
Defined.

(** C9, as stated, fails: with both switches cached as on, switching the
    charge path off completes and sends its command, and the cache still
    says that both are on. *)
Lemma set_switch_keeps_cache :
  let self := set_switches init (Some (switch_state true true)) in
  let run := set_switch "charge" false self [] in
  fst (fst run) = Return tt
  /\ tx_log (snd (fst run)) = [[0xDD; 0x5A; 0xE1; 0x02; 0x00; 0x01; 0xFF; 0x1C; 0x77]]
  /\ _switches (snd (fst run)) = Some (switch_state true true)
  /\ _switches (snd (fst run))
     <> Some (<["charge" := false]> (switch_state true true)).
Proof.
  cbv zeta. do 3 (split; [reflexivity|]).
  intros H.
  apply (f_equal (fun o : option (gmap string bool) =>
                    match o with Some m => m !! "charge" | None => None end)) in H.
  vm_compute in H. discriminate H.
Qed.

(** ** Requests and their timeout *)

(** What the handler emits and buffers depends on the buffer alone. *)
Lemma handler_buffer_only (s1 s2 : JbdBt) (data : list Z) :
  _buffer s1 = _buffer s2 ->
  snd (_notification_handler s1 data) = snd (_notification_handler s2 data)
  /\ _buffer (fst (_notification_handler s1 data))
     = _buffer (fst (_notification_handler s2 data)).
Proof.
  intros H. unfold _notification_handler. simpl _buffer. rewrite H.
  destruct (endswith (_buffer s2 ++ data) 119); [|split; reflexivity].
  destruct (index (_buffer s2 ++ data) 1); split; reflexivity.
Qed.

Lemma feed_buffer_only (chunks : list (list Z)) :
  forall s1 s2 : JbdBt, _buffer s1 = _buffer s2 ->
  snd (feed s1 chunks) = snd (feed s2 chunks)
  /\ _buffer (fst (feed s1 chunks)) = _buffer (fst (feed s2 chunks)).
Proof.
  induction chunks as [|c chunks IH]; intros s1 s2 H; simpl.
  - split; [reflexivity | exact H].
  - destruct (handler_buffer_only s1 s2 c H) as [Hh Hb].
    destruct (_notification_handler s1 c) as [t1 h1].
    destruct (_notification_handler s2 c) as [t2 h2].
    simpl in Hh, Hb. subst h2.
    destruct (IH t1 t2 Hb) as [Hs Hf].
    destruct (feed t1 chunks) as [u1 hs1]. destruct (feed t2 chunks) as [u2 hs2].
    simpl in Hs, Hf. subst hs2. split; [reflexivity | exact Hf].
Qed.

(** A frame for another command, a failed call and a buffered chunk leave
    the waiter of [cmd] as it is. *)
Lemma handler_keeps_waiter (cmd : Z) (self : JbdBt) (data : list Z) :
  unanswered cmd [snd (_notification_handler self data)] = true ->
  _fetch_futures (fst (_notification_handler self data)) !! cmd
  = _fetch_futures self !! cmd.
Proof.
  unfold _notification_handler. simpl _buffer.
  destruct (endswith (_buffer self ++ data) 119); [|reflexivity].
  destruct (index (_buffer self ++ data) 1) as [c|]; [|reflexivity].
  simpl. rewrite andb_true_r. intros Hc. apply negb_true_iff, Z.eqb_neq in Hc.
  unfold set_result.
  destruct (_fetch_futures self !! c) as [[|]|]; try reflexivity.
  now apply lookup_insert_ne.
Qed.

Lemma wait_for_notify (cmd : Z) (t : nat) (self : JbdBt) (data : list Z)
    (env : list event) :
  _fetch_futures self !! cmd = Some Pending ->
  wait_for cmd t self (Notify data :: env)
  = wait_for cmd t (fst (_notification_handler self data)) env.
Proof. intros H. cbn [wait_for]. now rewrite H. Qed.

Lemma wait_for_tick (cmd : Z) (t : nat) (self : JbdBt) (env : list event) :
  _fetch_futures self !! cmd = Some Pending ->
  wait_for cmd (S (S t)) self (Tick :: env) = wait_for cmd (S t) self env.
Proof. intros H. cbn [wait_for]. now rewrite H. Qed.

Lemma wait_for_deadline (cmd : Z) (self : JbdBt) (env : list event) :
  _fetch_futures self !! cmd = Some Pending ->
  wait_for cmd 1 self (Tick :: env) = (Throw TimeoutError, release cmd self, env).
Proof. intros H. cbn [wait_for]. now rewrite H. Qed.

Lemma wait_for_done (cmd : Z) (t : nat) (self : JbdBt) (env : list event)
    (buf : list Z) :
  _fetch_futures self !! cmd = Some (Done buf) ->
  wait_for cmd t self env = (Return buf, self, env).
Proof. intros H. destruct env; cbn [wait_for]; now rewrite H. Qed.

(** While no frame for [cmd] completes, waiting only runs the handler on
    the notifications and counts the time. *)
Lemma wait_for_quiet (cmd : Z) (rest : list event) (pre : list event) :
  forall (n : nat) (self : JbdBt),
  (ticks pre <= n)%nat ->
  _fetch_futures self !! cmd = Some Pending ->
  unanswered cmd (snd (feed self (notifications pre))) = true ->
  wait_for cmd (S n) self (pre ++ rest)
  = wait_for cmd (S (n - ticks pre)) (fst (feed self (notifications pre))) rest
  /\ _fetch_futures (fst (feed self (notifications pre))) !! cmd = Some Pending.
Proof.
  induction pre as [|[data|] pre IH]; intros n self Hn Hp Hu.
  - simpl. rewrite Nat.sub_0_r. split; [reflexivity | exact Hp].
  - cbn [app notifications ticks feed] in *.
    rewrite wait_for_notify by exact Hp.
    pose proof (handler_keeps_waiter cmd self data) as Hk.
    destruct (_notification_handler self data) as [s1 h].
    destruct (feed s1 (notifications pre)) as [s2 hs] eqn:Ef.
    cbn [fst snd] in *.
    assert (Hh : unanswered cmd [h] = true /\ unanswered cmd hs = true).
    { destruct h; simpl in Hu |- *; try (split; [reflexivity | exact Hu]).
      apply andb_true_iff in Hu as [H1 H2]. rewrite H1. split; [reflexivity | exact H2]. }
    destruct Hh as [Hh Hhs].
    destruct (IH n s1 Hn) as [IH1 IH2].
    + rewrite Hk; [exact Hp | exact Hh].
    + rewrite Ef. exact Hhs.
    + rewrite Ef in IH1, IH2. split; assumption.
  - cbn [app notifications ticks] in *.
    destruct n as [|n]; [lia|].
    rewrite wait_for_tick by exact Hp.
    apply IH; [lia | exact Hp | exact Hu].
Qed.

(** A request whose slot is free and whose command is a valid code
    registers its waiter, writes the read request and waits. *)
Lemma q_start (cmd : Z) (self : JbdBt) (env : list event) :
  _fetch_futures self !! cmd = None -> 1 <= cmd <= 255 ->
  _q cmd self env
  = match wait_for cmd TIMEOUT
            (write_gatt_char
               (set_fetch_futures self (<[cmd := Pending]> (_fetch_futures self)))
               [0xDD; 0xA5; cmd; 0x00; 0xFF; 0xFF - (cmd - 1); 0x77])
            env with
    | (Blocked, s, e) => (Blocked, s, e)
    | (r, s, e) => (r, release cmd s, e)
    end.
Proof.
  intros Hfree Hcmd. unfold _q, acquire. rewrite Hfree.
  now rewrite (jbd_command_ok cmd Hcmd).
Qed.

(** Without a matching frame the request is suspended until the deadline,
    fails there, and leaves the buffer as the handler filled it. *)
Lemma request_times_out (self : JbdBt) (cmd : Z) (pre rest : list event) :
  _fetch_futures self !! cmd = None -> 1 <= cmd <= 255 ->
  S (ticks pre) = TIMEOUT ->
  unanswered cmd (snd (feed self (notifications pre))) = true ->
  exists self',
    _q cmd self (pre ++ Tick :: rest) = (Throw TimeoutError, self', rest)
    /\ fst (fst (_q cmd self pre)) = Blocked
    /\ _fetch_futures self' !! cmd = None
    /\ _buffer self' = _buffer (fst (feed self (notifications pre))).
Proof.
  intros Hfree Hcmd Hticks Hun.
  rewrite !(q_start cmd self) by assumption.
  set (self0 := write_gatt_char _ _).
  assert (Hp0 : _fetch_futures self0 !! cmd = Some Pending)
    by apply lookup_insert_eq.
  destruct (feed_buffer_only (notifications pre) self0 self eq_refl) as [Hev Hbuf].
  change TIMEOUT with 16%nat in *. injection Hticks as Hticks.
  assert (Hq : forall rest',
             wait_for cmd 16 self0 (pre ++ rest')
             = wait_for cmd 1 (fst (feed self0 (notifications pre))) rest'
             /\ _fetch_futures (fst (feed self0 (notifications pre))) !! cmd
                = Some Pending).
  { intros rest'.
    destruct (wait_for_quiet cmd rest' pre 15 self0) as [H1 H2];
      [lia | exact Hp0 | now rewrite Hev |].
    rewrite H1, Hticks, Nat.sub_diag. split; [reflexivity | exact H2]. }
  destruct (Hq (Tick :: rest)) as [Hw Hp].
  rewrite Hw, (wait_for_deadline _ _ _ Hp).
  eexists. split; [reflexivity|]. split; [|split].
  - destruct (Hq []) as [Hw' _]. rewrite app_nil_r in Hw'. rewrite Hw'.
    cbn [wait_for]. rewrite Hp. reflexivity.
  - apply lookup_delete_eq.
  - exact Hbuf.
Qed.

(** From an empty buffer, a request whose frame arrives before the deadline,
    in chunks of which only the last ends with the terminator, returns the
    frame. *)
Lemma request_succeeds (self : JbdBt) (cmd : Z) (frame : list Z)
    (pre : list event) (final : list Z) (rest : list event) :
  _buffer self = [] -> _fetch_futures self !! cmd = None -> 1 <= cmd <= 255 ->
  well_formed frame = true -> frame !! 1%nat = Some cmd ->
  concat (notifications pre ++ [final]) = frame ->
  forallb nonempty (notifications pre ++ [final]) = true ->
  quiet_split (notifications pre ++ [final]) = true ->
  (ticks pre < TIMEOUT)%nat ->
  exists self',
    _q cmd self (pre ++ Notify final :: rest) = (Return frame, self', rest)
    /\ _buffer self' = [] /\ _fetch_futures self' !! cmd = None
    /\ _last_response self' = Some frame.
Proof.
  intros Hbuf Hfree Hcmd Hwf Hecho Hcat Hne Hquiet Hticks.
  destruct (well_formed_split frame _ Hwf Hcat Hne)
    as (front & final' & command & Hsplit & Hfront & Hfinal & Hend & Hframe & Hc).
  apply app_inj_tail in Hsplit as [<- <-].
  unfold quiet_split in Hquiet. rewrite removelast_last in Hquiet.
  rewrite (q_start cmd self) by assumption.
  set (self0 := write_gatt_char _ _).
  assert (Hp0 : _fetch_futures self0 !! cmd = Some Pending)
    by apply lookup_insert_eq.
  change TIMEOUT with 16%nat in *.
  pose proof (feed_buffers self0 (notifications pre) Hfront Hquiet) as Hfeed.
  destruct (wait_for_quiet cmd (Notify final :: rest) pre 15 self0) as [Hw Hp];
    [lia | exact Hp0 | now rewrite Hfeed |].
  rewrite Hw. rewrite Hfeed in Hp |- *. cbn [fst] in Hp |- *.
  rewrite wait_for_notify by exact Hp.
  assert (Hb : _buffer (set_buffer self0 (_buffer self0 ++ concat (notifications pre)))
               ++ final = frame).
  { simpl. rewrite Hbuf. simpl. now rewrite Hframe. }
  rewrite (handler_completes _ final cmd); rewrite ?Hb; try assumption.
  cbn [fst].
  rewrite (wait_for_done cmd _ _ rest frame).
  - eexists. split; [reflexivity|]. split; [reflexivity|]. split; [|reflexivity].
    apply lookup_delete_eq.
  - simpl. unfold set_result.
    rewrite lookup_insert_eq. apply lookup_insert_eq.
Qed.

(** C5, as the code has it: a request for which no complete frame echoing
    its command arrives is suspended until the 16th unit of time, fails
    there with [TimeoutError], and its waiter slot is released; the timeout
    does not clear the frame buffer, which keeps what the notification
    handler left in it; when that is nothing, a subsequent request for a
    free command, whose frame arrives in time, succeeds normally. *)
Theorem request_timeout (self : JbdBt) (cmd : Z) (pre rest : list event) :
  _fetch_futures self !! cmd = None -> 1 <= cmd <= 255 ->
  S (ticks pre) = TIMEOUT ->
  unanswered cmd (snd (feed self (notifications pre))) = true ->
  exists self',
    _q cmd self (pre ++ Tick :: rest) = (Throw TimeoutError, self', rest)
    /\ fst (fst (_q cmd self pre)) = Blocked
    /\ _fetch_futures self' !! cmd = None
    /\ _buffer self' = _buffer (fst (feed self (notifications pre)))
    /\ (_buffer self' = [] ->
        forall (cmd2 : Z) (frame : list Z) (pre2 : list event) (final : list Z)
               (rest2 : list event),
          _fetch_futures self' !! cmd2 = None -> 1 <= cmd2 <= 255 ->
          well_formed frame = true -> frame !! 1%nat = Some cmd2 ->
          concat (notifications pre2 ++ [final]) = frame ->
          forallb nonempty (notifications pre2 ++ [final]) = true ->
          quiet_split (notifications pre2 ++ [final]) = true ->
          (ticks pre2 < TIMEOUT)%nat ->
          exists self2,
            _q cmd2 self' (pre2 ++ Notify final :: rest2) = (Return frame, self2, rest2)
            /\ _buffer self2 = []).
Proof.
  intros Hfree Hcmd Hticks Hun.
  destruct (request_times_out self cmd pre rest Hfree Hcmd Hticks Hun)
    as (self' & Hrun & Hblocked & Hslot & Hbuf).
  exists self'. repeat (split; [assumption|]).
  intros Hempty cmd2 frame pre2 final rest2 Hfree2 Hcmd2 Hwf Hecho Hcat Hne Hq Ht.
  destruct (request_succeeds self' cmd2 frame pre2 final rest2
              Hempty Hfree2 Hcmd2 Hwf Hecho Hcat Hne Hq Ht)
    as (self2 & Hrun2 & Hbuf2 & _).
  exists self2. split; assumption.
Qed.

Lemma request_timeout_witness :
  let pre := Notify [0xDD; 0x04; 0x00; 0x00; 0x00; 0x00; 0x77] :: repeat Tick 15 in
  exists self',
    _q 0x03 init (pre ++ Tick :: [Tick]) = (Throw TimeoutError, self', [Tick])
    /\ fst (fst (_q 0x03 init pre)) = Blocked
    /\ _fetch_futures self' !! 0x03 = None
    /\ _buffer self' = _buffer (fst (feed init (notifications pre)))
    /\ (_buffer self' = [] ->
        forall (cmd2 : Z) (frame : list Z) (pre2 : list event) (final : list Z)
               (rest2 : list event),
          _fetch_futures self' !! cmd2 = None -> 1 <= cmd2 <= 255 ->
          well_formed frame = true -> frame !! 1%nat = Some cmd2 ->
          concat (notifications pre2 ++ [final]) = frame ->
          forallb nonempty (notifications pre2 ++ [final]) = true ->
          quiet_split (notifications pre2 ++ [final]) = true ->
          (ticks pre2 < TIMEOUT)%nat ->
          exists self2,
            _q cmd2 self' (pre2 ++ Notify final :: rest2) = (Return frame, self2, rest2)
            /\ _buffer self2 = []).
Proof.
  intros pre.
  apply (request_timeout init 0x03 pre [Tick]).
  - reflexivity.
  - lia.
  - reflexivity.
  - reflexivity.
Defined.

(** C5, as stated, fails: a request that times out after the first two
    bytes of its response leaves them in the buffer, and the response of the
    next request, for the cell voltages, is appended to them: the handler
    reads the stale command byte, no waiter is resolved, and the second
    request times out as well, although its whole frame arrived; from an
    empty buffer the same notification answers it. *)
Lemma timeout_keeps_partial_frame :
  let cells := [0xDD; 0x04; 0x00; 0x08; 0x0C; 0xE4; 0x0C; 0xE4; 0x0C; 0xE4;
                0x0C; 0xE4; 0xFC; 0x38; 0x77] in
  let first := _q 0x03 init (Notify [0xDD; 0x03] :: repeat Tick 16) in
  let second := _q 0x04 (snd (fst first)) (Notify cells :: repeat Tick 16) in
  fst (fst first) = Throw TimeoutError
  /\ _buffer (snd (fst first)) = [0xDD; 0x03]
  /\ _buffer (snd (fst first)) <> []
  /\ fst (fst second) = Throw TimeoutError
  /\ _last_response (snd (fst second)) = Some ([0xDD; 0x03] ++ cells)
  /\ fst (fst (_q 0x04 init (Notify cells :: repeat Tick 16))) = Return cells.
Proof.
  cbv zeta. split; [vm_compute; reflexivity|].
  split; [vm_compute; reflexivity|].
  split; [vm_compute; discriminate|].
  split; [vm_compute; reflexivity|].
  split; vm_compute; reflexivity.
Qed.

(** * Further properties of the driver *)

(** ** The notification handler on arbitrary input *)

Lemma completed_app (hs1 hs2 : list handled) :
  completed (hs1 ++ hs2) = completed hs1 ++ completed hs2.
Proof. unfold completed. apply flat_map_app. Qed.

Lemma feed_cons (self : JbdBt) (data : list Z) (chunks : list (list Z)) :
  feed self (data :: chunks)
  = (fst (feed (fst (_notification_handler self data)) chunks),
     match snd (_notification_handler self data) with
     | NoFrame => snd (feed (fst (_notification_handler self data)) chunks)
     | h => h :: snd (feed (fst (_notification_handler self data)) chunks)
     end).
Proof.
  cbn [feed]. destruct (_notification_handler self data) as [s h].
  cbn [fst snd]. destruct (feed s chunks) as [s' hs]. now destruct h.
Qed.

(** One call of the handler loses no byte: what it emits and what it keeps
    are the old buffer followed by the chunk. *)
Lemma handler_conserves (self : JbdBt) (data : list Z) :
  concat (completed [snd (_notification_handler self data)])
  ++ _buffer (fst (_notification_handler self data))
  = _buffer self ++ data.
Proof.
  unfold _notification_handler. simpl _buffer.
  destruct (endswith (_buffer self ++ data) 119); [|reflexivity].
  destruct (index (_buffer self ++ data) 1); simpl; [|reflexivity].
  now rewrite !app_nil_r.
Qed.

(** X1: whatever the chunks and whatever the buffer held, the handler never
    drops, duplicates or reorders a byte: the frames it emitted, in order,
    followed by the buffer it is left with, are the initial buffer followed
    by the chunks. *)
Theorem feed_conserves_bytes (chunks : list (list Z)) (self : JbdBt) :
  concat (completed (snd (feed self chunks))) ++ _buffer (fst (feed self chunks))
  = _buffer self ++ concat chunks.
Proof.
  revert self. induction chunks as [|data chunks IH]; intros self.
  - simpl. now rewrite app_nil_r.
  - rewrite feed_cons. cbn [fst snd concat].
    pose proof (handler_conserves self data) as Hh.
    specialize (IH (fst (_notification_handler self data))).
    rewrite app_assoc, <- Hh, <- app_assoc, <- IH.
    destruct (snd (_notification_handler self data)); simpl;
      rewrite ?app_nil_r, <- ?app_assoc; reflexivity.
Qed.

Lemma endswith_two (l : list Z) (t : Z) :
  endswith l t = true -> l !! 1%nat = None -> l = [t].
Proof.
  unfold endswith. intros Hend Hshort.
  destruct l as [|x [|y l]]; simpl in *; try discriminate.
  apply Z.eqb_eq in Hend. now subst.
Qed.

(** X2: every complete-frame event carries a buffer that ends with the
    terminator [0x77] and whose second byte is the command the event is
    filed under; the only failure of the handler is [IndexError]. *)
Theorem feed_events_shape (chunks : list (list Z)) (self : JbdBt) :
  Forall (fun h => match h with
                   | Frame command buf =>
                       endswith buf 0x77 = true /\ buf !! 1%nat = Some command
                   | Failed e => e = IndexError
                   | NoFrame => False
                   end)
         (snd (feed self chunks)).
Proof.
  revert self. induction chunks as [|data chunks IH]; intros self.
  - constructor.
  - rewrite feed_cons. cbn [snd].
    specialize (IH (fst (_notification_handler self data))).
    unfold _notification_handler at 1. simpl _buffer.
    destruct (endswith (_buffer self ++ data) 119) eqn:Hend; [|exact IH].
    unfold index.
    destruct ((_buffer self ++ data) !! 1%nat) as [c|] eqn:Hc; simpl;
      constructor; auto.
Qed.

(** X3: the handler fails exactly when the buffer, after the chunk is
    appended, is the lone terminator byte: reading the command byte raises
    [IndexError], and the byte stays in the buffer. *)
Theorem handler_fails_iff_lone_terminator (self : JbdBt) (data : list Z) :
  (exists e, snd (_notification_handler self data) = Failed e)
  <-> _buffer self ++ data = [0x77].
Proof.
  unfold _notification_handler. simpl _buffer. split.
  - intros [e H].
    destruct (endswith (_buffer self ++ data) 119) eqn:Hend; [|discriminate].
    unfold index in H.
    destruct ((_buffer self ++ data) !! 1%nat) eqn:Hc; [discriminate|].
    now apply endswith_two.
  - intros ->. exists IndexError. reflexivity.
Qed.

Lemma lone_terminator_stays (self : JbdBt) (data : list Z) :
  _buffer self ++ data = [0x77] ->
  _notification_handler self data = (set_buffer self [0x77], Failed IndexError).
Proof.
  intros H. unfold _notification_handler. simpl _buffer. now rewrite H.
Qed.

(** From any buffer: chunks that do not end with the terminator, then one
    that does, complete one frame, which is the buffer and all the chunks. *)
Lemma feed_completes (self : JbdBt) (front : list (list Z)) (final : list Z)
    (command : Z) :
  forallb nonempty front = true ->
  forallb (fun c => negb (endswith c 0x77)) front = true ->
  nonempty final = true -> endswith final 0x77 = true ->
  (_buffer self ++ concat front ++ final) !! 1%nat = Some command ->
  feed self (front ++ [final])
  = (set_fetch_futures
       (set_last_response (set_buffer self [])
          (Some (_buffer self ++ concat front ++ final)))
       (set_result (_fetch_futures self) command
          (_buffer self ++ concat front ++ final)),
     [Frame command (_buffer self ++ concat front ++ final)]).
Proof.
  intros Hne Hq Hfinal Hend Hcmd.
  rewrite feed_app, (feed_buffers self front) by assumption.
  cbn [fst snd feed].
  rewrite (handler_completes _ final command); simpl _buffer;
    rewrite <- ?app_assoc; try assumption.
  reflexivity.
Qed.

(** X4: a terminator byte left alone in the buffer shifts the next frame:
    a well-formed frame that arrives then is emitted with the stray byte in
    front and filed under command [0xDD], its own first byte, so that no
    waiter for another command is resolved by it. *)
Theorem stray_terminator_shifts_command (self : JbdBt) (frame : list Z)
    (chunks : list (list Z)) (cmd : Z) :
  _buffer self = [0x77] ->
  well_formed frame = true ->
  concat chunks = frame ->
  forallb nonempty chunks = true ->
  quiet_split chunks = true ->
  cmd <> 0xDD ->
  snd (feed self chunks) = [Frame 0xDD (0x77 :: frame)]
  /\ _fetch_futures (fst (feed self chunks)) !! cmd = _fetch_futures self !! cmd
  /\ _buffer (fst (feed self chunks)) = [].
Proof.
  intros Hbuf Hwf Hcat Hne Hq Hcmd.
  destruct (well_formed_split frame chunks Hwf Hcat Hne)
    as (front & final & c & -> & Hfront & Hfinal & Hend & Hframe & _).
  unfold quiet_split in Hq. rewrite removelast_last in Hq.
  assert (Hhead : (_buffer self ++ concat front ++ final) !! 1%nat = Some 0xDD).
  { rewrite Hbuf, <- Hframe. destruct frame as [|b frame]; [discriminate|].
    simpl in Hwf. apply andb_true_iff in Hwf as [Hb _].
    apply Z.eqb_eq in Hb. now subst b. }
  rewrite (feed_completes self front final 0xDD) by assumption.
  rewrite Hbuf, <- Hframe. cbn [fst snd]. repeat split.
  simpl. unfold set_result.
  destruct (_fetch_futures self !! 221) as [[|]|]; try reflexivity.
  apply lookup_insert_ne. congruence.
Qed.

Lemma stray_terminator_shifts_command_witness :
  let self := fst (feed init [[0x77]]) in
  let frame := [0xDD; 0x03; 0x00; 0x02; 0x0C; 0xE4; 0xFF; 0x0E; 0x77] in
  snd (feed self [[0xDD; 0x03]; drop 2 frame]) = [Frame 0xDD (0x77 :: frame)]
  /\ _fetch_futures (fst (feed self [[0xDD; 0x03]; drop 2 frame])) !! 0x03
     = _fetch_futures self !! 0x03
  /\ _buffer (fst (feed self [[0xDD; 0x03]; drop 2 frame])) = [].
Proof.
  intros self frame.
  apply (stray_terminator_shifts_command self frame [[0xDD; 0x03]; drop 2 frame] 0x03);
    try reflexivity. lia.
Defined.

Lemma last_cons_some (x : list Z) (l : list (list Z)) :
  last (x :: l) = match last l with Some y => Some y | None => Some x end.
Proof. destruct l as [|y l]; [reflexivity|]. rewrite last_cons_cons.
  destruct (last (y :: l)) eqn:E; [reflexivity|].
  apply last_None in E. discriminate.
Qed.

(** X5: [debug_data] returns the most recent complete frame: after any
    sequence of notifications it is the last frame they completed, and the
    value it had before when they completed none. *)
Theorem debug_data_last_frame (chunks : list (list Z)) (self : JbdBt) :
  debug_data (fst (feed self chunks))
  = match last (completed (snd (feed self chunks))) with
    | Some buf => Some buf
    | None => debug_data self
    end.
Proof.
  revert self. induction chunks as [|data chunks IH]; intros self.
  - reflexivity.
  - rewrite feed_cons. cbn [fst snd].
    rewrite (IH (fst (_notification_handler self data))).
    unfold _notification_handler. simpl _buffer.
    destruct (endswith (_buffer self ++ data) 119); [|reflexivity].
    destruct (index (_buffer self ++ data) 1) as [c|]; cbn [fst snd].
    + change (completed (Frame c (_buffer self ++ data) :: ?hs))
        with ((_buffer self ++ data) :: completed hs).
      rewrite last_cons_some.
      now destruct (last (completed _)).
    + reflexivity.
Qed.

(** ** Requests: what they write, keep and return *)

Lemma jbd_command_invalid (c : Z) :
  c < 1 \/ 255 < c -> _jbd_command c = Raise ValueError.
Proof.
  intros Hc. unfold _jbd_command, bytes. simpl.
  destruct (is_byte c) eqn:E1; [|reflexivity].
  destruct (is_byte (255 - (c - 1))) eqn:E2; [|reflexivity].
  apply is_byte_spec in E1, E2. lia.
Qed.

Lemma wait_for_unfold (cmd : Z) (t : nat) (self : JbdBt) (env : list event) :
  wait_for cmd t self env
  = match _fetch_futures self !! cmd with
    | Some (Done buf) => (Return buf, self, env)
    | _ =>
        match env with
        | [] => (Blocked, self, [])
        | Notify data :: env =>
            wait_for cmd t (fst (_notification_handler self data)) env
        | Tick :: env =>
            match t with
            | S (S n) => wait_for cmd (S n) self env
            | _ => (Throw TimeoutError, release cmd self, env)
            end
        end
    end.
Proof. destruct env; reflexivity. Qed.

(** The handler touches neither the transport nor the switch cache. *)
Lemma handler_frame (self : JbdBt) (data : list Z) :
  tx_log (fst (_notification_handler self data)) = tx_log self
  /\ _switches (fst (_notification_handler self data)) = _switches self.
Proof.
  unfold _notification_handler. simpl _buffer.
  destruct (endswith (_buffer self ++ data) 119); [|split; reflexivity].
  destruct (index (_buffer self ++ data) 1); split; reflexivity.
Qed.

Lemma wait_for_frame (cmd : Z) (env : list event) :
  forall (t : nat) (self : JbdBt),
  tx_log (snd (fst (wait_for cmd t self env))) = tx_log self
  /\ _switches (snd (fst (wait_for cmd t self env))) = _switches self.
Proof.
  induction env as [|[data|] env IH]; intros t self; rewrite wait_for_unfold.
  - destruct (_fetch_futures self !! cmd) as [[|buf]|]; split; reflexivity.
  - destruct (_fetch_futures self !! cmd) as [[|buf]|]; try (split; reflexivity);
      destruct (IH t (fst (_notification_handler self data))) as [H1 H2];
      destruct (handler_frame self data) as [H3 H4];
      rewrite H1, H2, H3, H4; split; reflexivity.
  - destruct (_fetch_futures self !! cmd) as [[|buf]|]; try (split; reflexivity);
      destruct t as [|[|t]]; try (split; reflexivity); apply IH.
Qed.

(** X6: a request that starts (free slot, command code in [1, 255]) writes
    its read frame to the command characteristic exactly once, whatever the
    notifications and however it ends (frame, timeout, still suspended), and
    does not touch the switch cache. *)
Theorem request_writes_once (cmd : Z) (self : JbdBt) (env : list event) :
  _fetch_futures self !! cmd = None -> 1 <= cmd <= 255 ->
  tx_log (snd (fst (_q cmd self env)))
  = tx_log self ++ [[0xDD; 0xA5; cmd; 0x00; 0xFF; 0xFF - (cmd - 1); 0x77]]
  /\ _switches (snd (fst (_q cmd self env))) = _switches self.
Proof.
  intros Hfree Hcmd. rewrite (q_start cmd self env Hfree Hcmd).
  set (self0 := write_gatt_char _ _).
  destruct (wait_for_frame cmd env TIMEOUT self0) as [Htx Hsw].
  destruct (wait_for cmd TIMEOUT self0 env) as [[o s] e].
  cbn [fst snd] in Htx, Hsw.
  destruct o; cbn [fst snd]; simpl; rewrite ?Htx, ?Hsw; split; reflexivity.
Qed.

Lemma request_writes_once_witness :
  tx_log (snd (fst (_q 0x04 init (Notify [0xDD; 0x04] :: repeat Tick 20))))
  = tx_log init ++ [[0xDD; 0xA5; 0x04; 0x00; 0xFF; 0xFF - (0x04 - 1); 0x77]]
  /\ _switches (snd (fst (_q 0x04 init (Notify [0xDD; 0x04] :: repeat Tick 20))))
     = _switches init.
Proof.
  apply (request_writes_once 0x04 init (Notify [0xDD; 0x04] :: repeat Tick 20)).
  - reflexivity.
  - lia.
Defined.

Lemma release_acquired (cmd : Z) (self : JbdBt) :
  _fetch_futures self !! cmd = None ->
  release cmd (set_fetch_futures self (<[cmd := Pending]> (_fetch_futures self)))
  = self.
Proof.
  intros H. unfold release, set_fetch_futures. simpl.
  rewrite delete_insert_id by exact H. now destruct self.
Qed.

(** X7: a request for a command code outside [1, 255] fails with
    [ValueError] while its frame is built: nothing is written, no event is
    consumed, and the instance is as before, its waiter slot free again. *)
Theorem request_invalid_command (cmd : Z) (self : JbdBt) (env : list event) :
  _fetch_futures self !! cmd = None -> cmd < 1 \/ 255 < cmd ->
  _q cmd self env = (Throw ValueError, self, env).
Proof.
  intros Hfree Hcmd. unfold _q, acquire. rewrite Hfree.
  rewrite (jbd_command_invalid cmd Hcmd).
  now rewrite (release_acquired cmd self Hfree).
Qed.

Lemma request_invalid_command_witness :
  _q 0x00 init [Notify [0xDD; 0x00; 0x77]]
  = (Throw ValueError, init, [Notify [0xDD; 0x00; 0x77]]).
Proof.
  apply (request_invalid_command 0x00 init [Notify [0xDD; 0x00; 0x77]]).
  - reflexivity.
  - lia.
Defined.

(** A waiter that the handler has just resolved holds the frame of that very
    call: terminated, echoing the command, recorded as last response, with
    the buffer cleared. *)
Lemma handler_resolves (cmd : Z) (self : JbdBt) (data buf : list Z) :
  (forall b, _fetch_futures self !! cmd <> Some (Done b)) ->
  _fetch_futures (fst (_notification_handler self data)) !! cmd = Some (Done buf) ->
  endswith buf 0x77 = true /\ buf !! 1%nat = Some cmd
  /\ _buffer (fst (_notification_handler self data)) = []
  /\ _last_response (fst (_notification_handler self data)) = Some buf.
Proof.
  intros Hnot. unfold _notification_handler. simpl _buffer.
  destruct (endswith (_buffer self ++ data) 119) eqn:Hend;
    [|intros H; now apply Hnot in H].
  unfold index.
  destruct ((_buffer self ++ data) !! 1%nat) as [c|] eqn:Hc;
    [|intros H; now apply Hnot in H].
  cbn [fst]. simpl. unfold set_result.
  destruct (_fetch_futures self !! c) as [[|b]|] eqn:Hl;
    try (intros H; now apply Hnot in H).
  destruct (decide (c = cmd)) as [->|Hne].
  - rewrite lookup_insert_eq. intros [= <-]. repeat split; assumption.
  - rewrite lookup_insert_ne by exact Hne. intros H. now apply Hnot in H.
Qed.

Lemma wait_for_result (cmd : Z) (env : list event) :
  forall (t : nat) (self : JbdBt) (frame : list Z) (self' : JbdBt)
         (env' : list event),
  (forall buf, _fetch_futures self !! cmd = Some (Done buf) ->
     endswith buf 0x77 = true /\ buf !! 1%nat = Some cmd
     /\ _buffer self = [] /\ _last_response self = Some buf) ->
  wait_for cmd t self env = (Return frame, self', env') ->
  endswith frame 0x77 = true /\ frame !! 1%nat = Some cmd
  /\ _buffer self' = [] /\ _last_response self' = Some frame.
Proof.
  induction env as [|[data|] env IH]; intros t self frame self' env' Hinv;
    rewrite wait_for_unfold;
    destruct (_fetch_futures self !! cmd) as [[|buf]|] eqn:Hl;
    try discriminate;
    try (intros [= <- <- _]; now apply Hinv).
  - apply IH. intros buf. apply handler_resolves. intros b. congruence.
  - apply IH. intros buf. apply handler_resolves. intros b. congruence.
  - destruct t as [|[|t]]; try discriminate. apply IH. intros buf. congruence.
  - destruct t as [|[|t]]; try discriminate. apply IH. intros buf. congruence.
Qed.

(** X8: whatever a request returns is a complete frame for its command: it
    ends with the terminator [0x77] and its second byte echoes the command
    code; when the request returns, the buffer is empty, [debug_data] gives
    that same frame, and the waiter slot is free again. *)
Theorem request_result_shape (cmd : Z) (self : JbdBt) (env : list event)
    (frame : list Z) (self' : JbdBt) (env' : list event) :
  _q cmd self env = (Return frame, self', env') ->
  endswith frame 0x77 = true /\ frame !! 1%nat = Some cmd
  /\ _buffer self' = [] /\ debug_data self' = Some frame
  /\ _fetch_futures self' !! cmd = None.
Proof.
  unfold _q, acquire.
  destruct (_fetch_futures self !! cmd) eqn:Hfree; [discriminate|].
  destruct (_jbd_command cmd) as [req|]; [|discriminate].
  destruct (wait_for cmd TIMEOUT _ env) as [[o s] e] eqn:Hw.
  destruct o; try discriminate. intros [= -> <- ->].
  apply wait_for_result in Hw.
  - destruct Hw as (H1 & H2 & H3 & H4). repeat split; try assumption.
    apply lookup_delete_eq.
  - intros buf. simpl. rewrite lookup_insert_eq. discriminate.
Qed.

Lemma request_result_shape_witness :
  let frame := [0xDD; 0x04; 0x00; 0x02; 0x0C; 0xE4; 0xFF; 0x0E; 0x77] in
  let env := [Notify [0xDD; 0x03; 0x77]; Tick; Notify (take 5 frame);
              Notify (drop 5 frame); Tick] in
  endswith frame 0x77 = true /\ frame !! 1%nat = Some 0x04
  /\ _buffer (snd (fst (_q 0x04 init env))) = []
  /\ debug_data (snd (fst (_q 0x04 init env))) = Some frame
  /\ _fetch_futures (snd (fst (_q 0x04 init env))) !! 0x04 = None.
Proof.
  intros frame env.
  apply (request_result_shape 0x04 init env frame (snd (fst (_q 0x04 init env))) [Tick]).
  vm_compute. reflexivity.
Defined.

(** ** The switch cache is written by a successful fetch only *)

Lemma q_keeps_switches (cmd : Z) (self : JbdBt) (env : list event) :
  _switches (snd (fst (_q cmd self env))) = _switches self.
Proof.
  unfold _q, acquire.
  destruct (_fetch_futures self !! cmd); [reflexivity|].
  destruct (_jbd_command cmd) as [req|]; [|reflexivity].
  match goal with |- context [wait_for cmd TIMEOUT ?s env] =>
    destruct (wait_for_frame cmd env TIMEOUT s) as [_ Hsw];
    destruct (wait_for cmd TIMEOUT s env) as [[o s'] e] end.
  cbn [fst snd] in Hsw. destruct o; cbn [fst snd]; simpl; exact Hsw.
Qed.

(** X9: the switch cache is written by a successful telemetry fetch and by
    nothing else on the request paths: a fetch that raises (timeout, short
    frame) or stays suspended leaves it as it was, and so does every
    cell-voltage request, whatever its outcome. *)
Theorem cache_written_by_fetch_only (self : JbdBt) (env : list event) :
  match fst (fst (fetch self env)) with
  | Return sample =>
      _switches (snd (fst (fetch self env))) = Some (switches sample)
  | _ => _switches (snd (fst (fetch self env))) = _switches self
  end
  /\ _switches (snd (fst (fetch_voltages self env))) = _switches self.
Proof.
  pose proof (q_keeps_switches 3 self env) as H3.
  pose proof (q_keeps_switches 4 self env) as H4.
  unfold fetch, fetch_voltages, bind, lift, modify, ret. split.
  - destruct (_q 3 self env) as [[[frame| |] s] e]; cbn [fst snd] in *;
      try exact H3.
    destruct (fetch_decode frame); cbn [fst snd]; [reflexivity | exact H3].
  - destruct (_q 4 self env) as [[[frame| |] s] e]; cbn [fst snd] in *;
      try exact H4.
    destruct (voltages_decode frame); cbn [fst snd]; exact H4.
Qed.

(** ** Switch commands: errors and composition *)

(** X10: a switch name other than "charge" and "discharge" fails the
    assertion before anything else happens: nothing is fetched, nothing is
    written, and the instance is untouched. *)
Theorem set_switch_invalid_name (switch : string) (state : bool) (self : JbdBt)
    (env : list event) :
  switch <> "charge" -> switch <> "discharge" ->
  set_switch switch state self env = (Throw AssertionError, self, env).
Proof.
  intros H1 H2. unfold set_switch, bind, lift.
  apply String.eqb_neq in H1, H2. now rewrite H1, H2.
Qed.

Lemma set_switch_invalid_name_witness :
  set_switch "Charge" true init [Tick] = (Throw AssertionError, init, [Tick]).
Proof.
  apply (set_switch_invalid_name "Charge" true init [Tick]); discriminate.
Defined.

(** The frame of a switch command, from its control byte. *)
Lemma switch_tc_table (charge_on discharge_on : bool) (switch : string)
    (state : bool) :
  switch = "charge" \/ switch = "discharge" ->
  switch_tc (switch_state charge_on discharge_on) switch state
  = (let '(c, d) := tentative charge_on discharge_on switch state in
     control_table c d).
Proof.
  intros [-> | ->]; destruct charge_on, discharge_on, state;
    vm_compute; reflexivity.
Qed.

(** X11: with an unset cache, a switch command is a telemetry fetch
    followed by the write of the control byte computed from the fetched
    switches; when that fetch raises or stays suspended, the switch command
    ends the same way, in the state the fetch left, and no switch command
    is sent. *)
Theorem set_switch_unset_cache (switch : string) (state : bool) (self : JbdBt)
    (env : list event) :
  switch = "charge" \/ switch = "discharge" ->
  switches_unset self = true ->
  set_switch switch state self env
  = match fetch self env with
    | (Return sample, s, e) =>
        (Return tt,
         write_gatt_char s
           (let tc := switch_tc (switches sample) switch state in
            [0xDD; 0x5A; 0xE1; 0x02; 0x00; tc; 0xFF; 0x1D - tc; 0x77]),
         e)
    | (Throw ex, s, e) => (Throw ex, s, e)
    | (Blocked, s, e) => (Blocked, s, e)
    end.
Proof.
  intros Hsw Hunset.
  assert (Hvalid : String.eqb switch "charge" || String.eqb switch "discharge" = true)
    by (destruct Hsw as [-> | ->]; reflexivity).
  destruct (fetch self env) as [[[sample|ex|] s] e] eqn:Hf.
  - pose proof (set_switch_cached switch state s e Hvalid
                  (fetch_cache_set _ _ _ _ _ Hf)) as Hrun.
    rewrite (fetch_caches _ _ _ _ _ Hf) in Hrun. simpl default in Hrun.
    rewrite <- Hrun.
    unfold set_switch, bind, lift, get, ret.
    rewrite Hvalid, Hunset, Hf, (fetch_cache_set _ _ _ _ _ Hf). reflexivity.
  - unfold set_switch, bind, lift, get, ret. now rewrite Hvalid, Hunset, Hf.
  - unfold set_switch, bind, lift, get, ret. now rewrite Hvalid, Hunset, Hf.
Qed.

Lemma set_switch_unset_cache_witness :
  set_switch "charge" true init (Notify [0xDD; 0x03] :: repeat Tick 16)
  = match fetch init (Notify [0xDD; 0x03] :: repeat Tick 16) with
    | (Return sample, s, e) =>
        (Return tt,
         write_gatt_char s
           (let tc := switch_tc (switches sample) "charge" true in
            [0xDD; 0x5A; 0xE1; 0x02; 0x00; tc; 0xFF; 0x1D - tc; 0x77]),
         e)
    | (Throw ex, s, e) => (Throw ex, s, e)
    | (Blocked, s, e) => (Blocked, s, e)
    end.
Proof.
  apply (set_switch_unset_cache "charge" true init
           (Notify [0xDD; 0x03] :: repeat Tick 16)).
  - left. reflexivity.
  - reflexivity.
Defined.

(** X12: two switch commands in a row are both computed from the state
    that was cached before the first: the second control byte is the table
    entry of the cached pair with the second change alone, as if the first
    command had not been sent.  From both paths on, switching charge off and
    then discharge off sends [0x01] and then [0x02] (charge on, discharge
    off), not [0x03]. *)
Theorem set_switch_twice (charge_on discharge_on : bool) (s1 s2 : string)
    (b1 b2 : bool) (self : JbdBt) (env : list event) :
  s1 = "charge" \/ s1 = "discharge" ->
  s2 = "charge" \/ s2 = "discharge" ->
  _switches self = Some (switch_state charge_on discharge_on) ->
  let tc1 := let '(c, d) := tentative charge_on discharge_on s1 b1 in control_table c d in
  let tc2 := let '(c, d) := tentative charge_on discharge_on s2 b2 in control_table c d in
  bind (set_switch s1 b1) (fun _ => set_switch s2 b2) self env
  = (Return tt,
     write_gatt_char
       (write_gatt_char self [0xDD; 0x5A; 0xE1; 0x02; 0x00; tc1; 0xFF; 0x1D - tc1; 0x77])
       [0xDD; 0x5A; 0xE1; 0x02; 0x00; tc2; 0xFF; 0x1D - tc2; 0x77],
     env).
Proof.
  intros H1 H2 Hcache tc1 tc2.
  assert (Hv : forall s, s = "charge" \/ s = "discharge" ->
               String.eqb s "charge" || String.eqb s "discharge" = true)
    by (intros s [-> | ->]; reflexivity).
  assert (Hset : forall s', _switches s' = Some (switch_state charge_on discharge_on) ->
                 switches_unset s' = false).
  { intros s' E. unfold switches_unset. rewrite E.
    destruct charge_on, discharge_on; vm_compute; reflexivity. }
  unfold bind at 1.
  rewrite (set_switch_cached s1 b1 self env (Hv s1 H1) (Hset self Hcache)).
  rewrite set_switch_cached; [|exact (Hv s2 H2)|apply Hset; exact Hcache].
  simpl _switches. rewrite Hcache. simpl default.
  rewrite (switch_tc_table _ _ s1 b1 H1), (switch_tc_table _ _ s2 b2 H2).
  reflexivity.
Qed.

Lemma set_switch_twice_witness :
  bind (set_switch "charge" false) (fun _ => set_switch "discharge" false)
       (set_switches init (Some (switch_state true true))) []
  = (Return tt,
     write_gatt_char
       (write_gatt_char (set_switches init (Some (switch_state true true)))
          [0xDD; 0x5A; 0xE1; 0x02; 0x00; 0x01; 0xFF; 0x1D - 0x01; 0x77])
       [0xDD; 0x5A; 0xE1; 0x02; 0x00; 0x02; 0xFF; 0x1D - 0x02; 0x77],
     []).
Proof.
  apply (set_switch_twice true true "charge" "discharge" false false
           (set_switches init (Some (switch_state true true))) []).
  - left. reflexivity.
  - right. reflexivity.
  - reflexivity.
Defined.

(** ** Messages *)

Lemma be16_bytes (v : Z) :
  0 <= v < 65536 ->
  is_byte (v / 256) = true /\ is_byte (v mod 256) = true
  /\ 256 * (v / 256) + v mod 256 = v.
Proof.
  intros Hv. pose proof (Z.div_mod v 256 ltac:(lia)) as Hdm.
  pose proof (Z.mod_pos_bound v 256 ltac:(lia)) as Hm.
  assert (Hd : 0 <= v / 256 < 256)
    by (split; [apply Z.div_pos; lia | apply Z.div_lt_upper_bound; lia]).
  repeat split; try (apply is_byte_spec); lia.
Qed.

(** X13: a message built from a status byte, a command byte and at most
    255 data bytes (not all of command, length and data zero) is
    [0xDD, status, command, length] ++ data ++ [hi, lo, 0x77], a well-formed
    frame of [length + 7] bytes, whose two checksum bytes are bytes and
    make command + length + data + checksum add up to [0x10000]. *)
Theorem jbd_message_frame (status cmd : Z) (data : list Z) :
  is_byte status = true -> is_byte cmd = true ->
  forallb is_byte data = true -> (length data <= 255)%nat ->
  0 < cmd + Z.of_nat (length data) + byte_sum data ->
  exists hi lo,
    jbd_message status cmd data
    = Ok ([0xDD; status; cmd; Z.of_nat (length data)] ++ data ++ [hi; lo; 0x77])
    /\ is_byte hi = true /\ is_byte lo = true
    /\ cmd + Z.of_nat (length data) + byte_sum data + (256 * hi + lo) = 0x10000
    /\ well_formed ([0xDD; status; cmd; Z.of_nat (length data)] ++ data ++ [hi; lo; 0x77])
       = true
    /\ length ([0xDD; status; cmd; Z.of_nat (length data)] ++ data ++ [hi; lo; 0x77])
       = (length data + 7)%nat.
Proof.
  intros Hs Hc Hd Hl Hpos.
  pose proof (byte_sum_bounds data Hd) as Hsum.
  pose proof Hc as Hc'. apply is_byte_spec in Hc'.
  set (v := 0x10000 - (cmd + Z.of_nat (length data) + byte_sum data)).
  assert (Hv : 0 <= v < 65536) by (unfold v; lia).
  destruct (be16_bytes v Hv) as (Hhi & Hlo & Hval).
  exists (v / 256), (v mod 256). split; [|split; [exact Hhi|split; [exact Hlo|]]].
  - unfold jbd_message. rewrite bytes_ok.
    + simpl rbind. rewrite jbd_checksum_unfold by assumption.
      fold v. rewrite (to_bytes2_ok v Hv). reflexivity.
    + simpl. rewrite Hs, Hc. simpl. rewrite andb_true_r.
      apply is_byte_spec. lia.
  - split; [unfold v in *; lia|]. split.
    + unfold well_formed. cbn [app]. rewrite Z.eqb_refl. cbn [andb].
      change (endswith (([0xDD; status; cmd; Z.of_nat (length data)] ++ data)
                        ++ [v / 256; v mod 256; 0x77]) 0x77 = true).
      now rewrite endswith_app.
    + simpl. rewrite length_app. simpl. lia.
Qed.

Lemma jbd_message_frame_witness :
  exists hi lo,
    jbd_message 0x5A 0xE1 [0x00; 0x03]
    = Ok ([0xDD; 0x5A; 0xE1; Z.of_nat (length [0x00; 0x03])] ++ [0x00; 0x03]
          ++ [hi; lo; 0x77])
    /\ is_byte hi = true /\ is_byte lo = true
    /\ 0xE1 + Z.of_nat (length [0x00; 0x03]) + byte_sum [0x00; 0x03] + (256 * hi + lo)
       = 0x10000
    /\ well_formed ([0xDD; 0x5A; 0xE1; Z.of_nat (length [0x00; 0x03])] ++ [0x00; 0x03]
                    ++ [hi; lo; 0x77]) = true
    /\ length ([0xDD; 0x5A; 0xE1; Z.of_nat (length [0x00; 0x03])] ++ [0x00; 0x03]
               ++ [hi; lo; 0x77]) = (length [0x00; 0x03] + 7)%nat.
Proof.
  apply (jbd_message_frame 0x5A 0xE1 [0x00; 0x03]);
    [reflexivity | reflexivity | reflexivity | simpl; lia | simpl; lia].
Defined.

(** X14: the read request of the module is the general message with status
    [0xA5] and no data: for every command code in [1, 255] its hard-coded
    checksum bytes are the ones the message builder computes. *)
Theorem read_request_is_message (c : Z) :
  1 <= c <= 255 -> jbd_message 0xA5 c [] = _jbd_command c.
Proof.
  intros Hc. rewrite (jbd_command_ok c Hc). unfold jbd_message.
  rewrite bytes_ok
    by (simpl; rewrite !andb_true_r; apply is_byte_spec; lia).
  simpl rbind.
  rewrite jbd_checksum_unfold by (try apply is_byte_spec; simpl; lia).
  rewrite to_bytes2_ok by (simpl; lia).
  unfold be16. simpl length. simpl byte_sum.
  replace ((65536 - (c + Z.of_nat 0 + 0)) / 256) with 255
    by (apply Z.div_unique with (r := 256 - c); lia).
  replace ((65536 - (c + Z.of_nat 0 + 0)) mod 256) with (255 - (c - 1))
    by (apply Z.mod_unique with (q := 255); lia).
  reflexivity.
Qed.

Lemma read_request_is_message_witness :
  jbd_message 0xA5 0x03 [] = _jbd_command 0x03.
Proof. apply (read_request_is_message 0x03). lia. Defined.

(** ** Decoded values *)

Lemma slice_bytes (l : list Z) (a b : nat) :
  forallb is_byte l = true -> forallb is_byte (slice l a b) = true.
Proof.
  intros H. apply forallb_forall. intros x Hx.
  rewrite forallb_forall in H. apply H.
  unfold slice in Hx. apply list_elem_of_In in Hx. apply list_elem_of_In.
  apply elem_of_take in Hx as (i & Hi & _).
  rewrite lookup_drop in Hi. eapply list_elem_of_lookup_2. exact Hi.
Qed.

Lemma from_bytes_two_bound (l : list Z) :
  forallb is_byte l = true -> (length l <= 2)%nat ->
  0 <= from_bytes l false < 65536.
Proof.
  intros Hb Hl. destruct l as [|x [|y [|z l]]]; simpl in Hl; try lia.
  - unfold from_bytes, be_value. simpl. lia.
  - simpl in Hb. rewrite andb_true_r in Hb. apply is_byte_spec in Hb.
    rewrite from_bytes_unsigned1. lia.
  - simpl in Hb. rewrite andb_true_r in Hb.
    apply andb_true_iff in Hb as [Hx Hy]. apply is_byte_spec in Hx, Hy.
    rewrite from_bytes_unsigned2. lia.
Qed.

(** X15: whatever the frame, every cell voltage that [fetch_voltages]
    decodes from bytes is an unsigned 16-bit value, and their number is the
    length byte halved, rounded down. *)
Theorem voltages_range (frame cells : list Z) :
  forallb is_byte frame = true ->
  voltages_decode frame = Ok cells ->
  Forall (fun v => 0 <= v < 0x10000) cells
  /\ length cells = Z.to_nat (byte_at frame 3 / 2).
Proof.
  intros Hb. unfold voltages_decode, index.
  destruct (frame !! 3%nat) as [len|] eqn:Hlen; [|discriminate].
  simpl rbind. intros [= <-].
  assert (Hlb : 0 <= len < 256).
  { apply is_byte_spec. rewrite forallb_forall in Hb. apply Hb.
    apply list_elem_of_In. eapply list_elem_of_lookup_2. exact Hlen. }
  split.
  - apply Forall_forall. intros v Hv. apply list_elem_of_In in Hv.
    apply in_map_iff in Hv as (i & <- & _).
    apply from_bytes_two_bound; [now apply slice_bytes|].
    unfold slice. rewrite length_take. lia.
  - rewrite length_map, length_seq. unfold byte_at.
    rewrite (nth_lookup_Some _ _ 0 _ Hlen).
    now rewrite Z.quot_div_nonneg by lia.
Qed.

Lemma voltages_range_witness :
  Forall (fun v => 0 <= v < 0x10000) [0x0CE4; 0xFF77]
  /\ length [0x0CE4; 0xFF77]
     = Z.to_nat (byte_at [0xDD; 0x04; 0x00; 0x05; 0x0C; 0xE4; 0xFF; 0x77] 3 / 2).
Proof.
  apply (voltages_range [0xDD; 0x04; 0x00; 0x05; 0x0C; 0xE4; 0xFF; 0x77]
           [0x0CE4; 0xFF77]); reflexivity.
Defined.

(** ** From the MOS-state byte to the control byte *)

Lemma mos_slice (payload : list Z) :
  from_bytes (slice payload 20 21) false = byte_at payload 20.
Proof.
  unfold byte_at. destruct (le_lt_dec 21 (length payload)) as [H|H].
  - now rewrite slice_one by lia.
  - unfold slice. rewrite nth_overflow by lia.
    rewrite drop_ge by lia. reflexivity.
Qed.

(** X16: the control byte is the two-bit complement of the MOS-state byte.
    Whatever frame the telemetry fetch decoded, the control byte that a
    switch command computes from the decoded switches is 3 minus the
    MOS-state byte of the resulting pair; and for a MOS-state byte in
    [0, 3] the decoded pair stands for that very byte. *)
Theorem control_byte_complements_mos (frame : list Z) (sample : BmsSample)
    (switch : string) (state : bool) :
  fetch_decode frame = Ok sample ->
  switch = "charge" \/ switch = "discharge" ->
  let m := byte_at (drop 4 frame) 20 in
  let '(c, d) := mos_switches m in
  let '(c', d') := tentative c d switch state in
  switches sample = switch_state c d
  /\ switch_tc (switches sample) switch state = 3 - mos_of c' d'
  /\ (0 <= m <= 3 -> mos_of c d = m).
Proof.
  intros Hdec Hsw m. unfold fetch_decode in Hdec.
  destruct (index (drop 4 frame) 19); [|discriminate].
  simpl rbind in Hdec. injection Hdec as <-. cbn [switches].
  rewrite mos_slice. fold m. rewrite mos_byte_switches.
  unfold mos_switches.
  destruct (Z.eqb_spec m 1) as [E1|N1]; [|destruct (Z.eqb_spec m 2) as [E2|N2];
    [|destruct (Z.eqb_spec m 3) as [E3|N3]]];
    (destruct Hsw as [-> | ->], state; cbn [tentative String.eqb];
     (split; [reflexivity|]); (split; [vm_compute; reflexivity|]);
     unfold mos_of; simpl; lia).
Qed.

Lemma control_byte_complements_mos_witness :
  let frame := [0xDD; 0x03; 0x00; 0x1B; 0x01; 0x2C; 0x00; 0x64; 0x00; 0x0A;
                0x00; 0x14; 0x00; 0x05; 0x00; 0x00; 0x00; 0x00; 0x00; 0x00;
                0x00; 0x00; 0x00; 0x32; 0x03; 0x04; 0x02; 0x0B; 0xAB; 0x0B;
                0xB5; 0xFD; 0x80; 0x77] in
  exists sample,
    fetch_decode frame = Ok sample
    /\ switches sample = switch_state true true
    /\ switch_tc (switches sample) "charge" false = 3 - mos_of false true
    /\ (0 <= byte_at (drop 4 frame) 20 <= 3 -> mos_of true true = byte_at (drop 4 frame) 20).
Proof.
  intros frame. eexists. split; [vm_compute; reflexivity|].
  refine (control_byte_complements_mos frame _ "charge" false _ _).
  - vm_compute. reflexivity.
  - left. reflexivity.
Defined.

(** ** Frames for other commands *)

(** From an empty buffer, a waiter is resolved by the frame that echoes its
    command when it arrives, before the deadline, in chunks of which only
    the last ends with the terminator. *)
Lemma wait_for_succeeds (cmd : Z) (n : nat) (self : JbdBt) (frame : list Z)
    (pre : list event) (final : list Z) (rest : list event) :
  _buffer self = [] -> _fetch_futures self !! cmd = Some Pending ->
  well_formed frame = true -> frame !! 1%nat = Some cmd ->
  concat (notifications pre ++ [final]) = frame ->
  forallb nonempty (notifications pre ++ [final]) = true ->
  quiet_split (notifications pre ++ [final]) = true ->
  (ticks pre <= n)%nat ->
  exists self',
    wait_for cmd (S n) self (pre ++ Notify final :: rest) = (Return frame, self', rest)
    /\ _buffer self' = [] /\ _last_response self' = Some frame
    /\ _fetch_futures self' = <[cmd := Done frame]> (_fetch_futures self).
Proof.
  intros Hbuf Hp Hwf Hecho Hcat Hne Hquiet Hticks.
  destruct (well_formed_split frame _ Hwf Hcat Hne)
    as (front & final' & command & Hsplit & Hfront & Hfinal & Hend & Hframe & Hc).
  apply app_inj_tail in Hsplit as [<- <-].
  unfold quiet_split in Hquiet. rewrite removelast_last in Hquiet.
  pose proof (feed_buffers self (notifications pre) Hfront Hquiet) as Hfeed.
  destruct (wait_for_quiet cmd (Notify final :: rest) pre n self) as [Hw Hp'];
    [exact Hticks | exact Hp | now rewrite Hfeed |].
  rewrite Hw. rewrite Hfeed in Hp' |- *. cbn [fst] in Hp' |- *.
  rewrite wait_for_notify by exact Hp'.
  assert (Hb : _buffer (set_buffer self (_buffer self ++ concat (notifications pre)))
               ++ final = frame).
  { simpl. rewrite Hbuf. simpl. now rewrite Hframe. }
  rewrite (handler_completes _ final cmd); rewrite ?Hb; try assumption.
  cbn [fst].
  assert (Hres : set_result (_fetch_futures self) cmd frame
                 = <[cmd := Done frame]> (_fetch_futures self))
    by (unfold set_result; now rewrite Hp).
  rewrite (wait_for_done cmd _ _ rest frame).
  - eexists. split; [reflexivity|]. repeat split. exact Hres.
  - simpl. rewrite Hres. apply lookup_insert_eq.
Qed.

(** X17: responses are matched by the echoed command only.  Complete
    frames for other commands that arrive while a request waits are
    consumed and do not answer it; when they leave the buffer empty, the
    request then returns its own frame, provided that frame arrives before
    the 16th unit of time, in chunks of which only the last ends with the
    terminator. *)
Theorem request_skips_other_frames (self : JbdBt) (cmd : Z) (frame : list Z)
    (others pre : list event) (final : list Z) (rest : list event) :
  _fetch_futures self !! cmd = None -> 1 <= cmd <= 255 ->
  unanswered cmd (snd (feed self (notifications others))) = true ->
  _buffer (fst (feed self (notifications others))) = [] ->
  well_formed frame = true -> frame !! 1%nat = Some cmd ->
  concat (notifications pre ++ [final]) = frame ->
  forallb nonempty (notifications pre ++ [final]) = true ->
  quiet_split (notifications pre ++ [final]) = true ->
  (ticks others + ticks pre < TIMEOUT)%nat ->
  exists self',
    _q cmd self (others ++ pre ++ Notify final :: rest) = (Return frame, self', rest)
    /\ _buffer self' = [] /\ debug_data self' = Some frame
    /\ _fetch_futures self' !! cmd = None.
Proof.
  intros Hfree Hcmd Hun Hempty Hwf Hecho Hcat Hne Hquiet Hticks.
  rewrite (q_start cmd self) by assumption.
  set (self0 := write_gatt_char _ _).
  assert (Hp0 : _fetch_futures self0 !! cmd = Some Pending)
    by apply lookup_insert_eq.
  destruct (feed_buffer_only (notifications others) self0 self eq_refl) as [Hev Hbuf].
  change TIMEOUT with 16%nat in *.
  destruct (wait_for_quiet cmd (pre ++ Notify final :: rest) others 15 self0)
    as [Hw Hp]; [lia | exact Hp0 | now rewrite Hev |].
  rewrite Hw.
  destruct (wait_for_succeeds cmd (15 - ticks others)
              (fst (feed self0 (notifications others))) frame pre final rest)
    as (s' & Hrun & Hb' & Hl' & _); try assumption; try lia.
  { now rewrite Hbuf. }
  rewrite Hrun. eexists. split; [reflexivity|].
  split; [exact Hb'|]. split; [exact Hl'|]. apply lookup_delete_eq.
Qed.

Lemma request_skips_other_frames_witness :
  let frame := [0xDD; 0x04; 0x00; 0x02; 0x0C; 0xE4; 0xFF; 0x0E; 0x77] in
  let others := [Tick; Notify [0xDD; 0x03; 0x00]; Notify [0x00; 0x00; 0x00; 0x77]; Tick] in
  let pre := [Notify (take 5 frame); Tick] in
  exists self',
    _q 0x04 init (others ++ pre ++ Notify (drop 5 frame) :: [Tick])
    = (Return frame, self', [Tick])
    /\ _buffer self' = [] /\ debug_data self' = Some frame
    /\ _fetch_futures self' !! 0x04 = None.
Proof.
  intros frame others pre.
  apply (request_skips_other_frames init 0x04 frame others pre (drop 5 frame) [Tick]);
    try reflexivity; try lia.
  vm_compute. lia.
Defined.

(** ** Counting the events *)

(** X18: when non-empty chunks are fed, the handler reacts (completes a
    frame or fails) once for each chunk that ends with the terminator byte
    and for no other: the number of its events is the number of such
    chunks, wherever the frames of the device really end. *)
Theorem feed_event_count (chunks : list (list Z)) (self : JbdBt) :
  forallb nonempty chunks = true ->
  length (snd (feed self chunks))
  = length (List.filter (fun c => endswith c 0x77) chunks).
Proof.
  revert self. induction chunks as [|data chunks IH]; intros self Hne.
  - reflexivity.
  - simpl in Hne. apply andb_true_iff in Hne as [Hd Hne].
    rewrite feed_cons. cbn [snd List.filter].
    specialize (IH (fst (_notification_handler self data)) Hne).
    unfold _notification_handler at 1. simpl _buffer.
    rewrite (endswith_app _ data _ Hd).
    destruct (endswith data 119); [|exact IH].
    destruct (index (_buffer self ++ data) 1); cbn [snd length];
      now rewrite IH.
Qed.

Lemma feed_event_count_witness :
  length (snd (feed init [[0xDD; 0x03; 0x77]; [0x00]; [0x77]; [0xDD]]))
  = length (List.filter (fun c => endswith c 0x77)
              [[0xDD; 0x03; 0x77]; [0x00]; [0x77]; [0xDD]]).
Proof.
  apply (feed_event_count [[0xDD; 0x03; 0x77]; [0x00]; [0x77]; [0xDD]] init).
  reflexivity.
Defined.
